(** * useIdleTimer: the idle/active state machine of react-idle-timer

    A shallow embedding of [src/useIdleTimer.js].  The hook keeps its
    session state in React refs ([useRef] cells) that the closures
    [_toggleIdleState], [_handleEvent], [reset], [pause], [resume] and the
    accessors read and assign.  The cells become one record, the closures
    become computations in a small state monad over that record, the
    browser's timer table and the trace of callback invocations.

    Time: every [+new Date()] of one synchronous call reads the same
    clock value, passed as the argument [now].  Timestamps, durations and
    pointer coordinates are integers ([Z]). *)

From Stdlib Require Import ZArith List String Bool Lia.
Import ListNotations.
Open Scope Z_scope.

(** ** JavaScript values that reach the pointer comparison *)

(** The two ref cells named by the mousemove test of [_handleEvent]. *)
Inductive RefCell : Type := PageXCell | PageYCell.

Inductive jsval : Type :=
| JUndefined
| JNull
| JNum (n : Z)
| JRefObject (c : RefCell).

Definition RefCell_eqb (a b : RefCell) : bool :=
  match a, b with
  | PageXCell, PageXCell | PageYCell, PageYCell => true
  | _, _ => false
  end.

(** [a === b]: no coercion; objects are equal by identity only. *)
Definition strict_eq (a b : jsval) : bool :=
  match a, b with
  | JUndefined, JUndefined => true
  | JNull, JNull => true
  | JNum x, JNum y => x =? y
  | JRefObject c, JRefObject d => RefCell_eqb c d
  | _, _ => false
  end.

(** [typeof v === 'undefined'] *)
Definition is_undefined (v : jsval) : bool :=
  match v with JUndefined => true | _ => false end.

(** A nullable number used in arithmetic: [null] converts to [0]. *)
Definition to_number (v : option Z) : Z :=
  match v with Some n => n | None => 0 end.

(** A nullable number used as a condition: [null] and [0] are falsy. *)
Definition truthy (v : option Z) : bool :=
  match v with
  | None => false
  | Some n => negb (n =? 0)
  end.

(** ** Events, props, refs *)

Record Event : Type := mkEvent {
  ev_type : string;
  ev_pageX : jsval;
  ev_pageY : jsval
}.

(** The props the state machine reads.  [element], [events], [capture] and
    [passive] only select which listeners are attached; the three
    callbacks are observed through the trace of [Call]s below. *)
Record Props : Type := mkProps {
  timeout : Z;
  debounce : Z;
  throttle : Z;
  eventsThrottle : Z;
  startOnMount : bool;
  stopOnIdle : bool
}.

(** The [useRef] cells, each field holding the cell's [.current]. *)
Record Refs : Type := mkRefs {
  eventsBound : bool;
  idle : bool;
  oldDate : Z;
  remaining : option Z;
  pageX : jsval;
  pageY : jsval;
  tId : option nat;
  lastActive : option Z;
  lastIdle : option Z;
  idleTime : Z;
  firstLoad : bool;
  _timeout : Z
}.

Definition set_eventsBound (v : bool) (r : Refs) : Refs :=
  let (_, b, c, d, e, f, g, h, i, j, k, l) := r in mkRefs v b c d e f g h i j k l.
Definition set_idle (v : bool) (r : Refs) : Refs :=
  let (a, _, c, d, e, f, g, h, i, j, k, l) := r in mkRefs a v c d e f g h i j k l.
Definition set_oldDate (v : Z) (r : Refs) : Refs :=
  let (a, b, _, d, e, f, g, h, i, j, k, l) := r in mkRefs a b v d e f g h i j k l.
Definition set_remaining (v : option Z) (r : Refs) : Refs :=
  let (a, b, c, _, e, f, g, h, i, j, k, l) := r in mkRefs a b c v e f g h i j k l.
Definition set_pageX (v : jsval) (r : Refs) : Refs :=
  let (a, b, c, d, _, f, g, h, i, j, k, l) := r in mkRefs a b c d v f g h i j k l.
Definition set_pageY (v : jsval) (r : Refs) : Refs :=
  let (a, b, c, d, e, _, g, h, i, j, k, l) := r in mkRefs a b c d e v g h i j k l.
Definition set_tId (v : option nat) (r : Refs) : Refs :=
  let (a, b, c, d, e, f, _, h, i, j, k, l) := r in mkRefs a b c d e f v h i j k l.
Definition set_lastActive (v : option Z) (r : Refs) : Refs :=
  let (a, b, c, d, e, f, g, _, i, j, k, l) := r in mkRefs a b c d e f g v i j k l.
Definition set_lastIdle (v : option Z) (r : Refs) : Refs :=
  let (a, b, c, d, e, f, g, h, _, j, k, l) := r in mkRefs a b c d e f g h v j k l.
Definition set_idleTime (v : Z) (r : Refs) : Refs :=
  let (a, b, c, d, e, f, g, h, i, _, k, l) := r in mkRefs a b c d e f g h i v k l.
Definition set_firstLoad (v : bool) (r : Refs) : Refs :=
  let (a, b, c, d, e, f, g, h, i, j, _, l) := r in mkRefs a b c d e f g h i j v l.
Definition set__timeout (v : Z) (r : Refs) : Refs :=
  let (a, b, c, d, e, f, g, h, i, j, k, _) := r in mkRefs a b c d e f g h i j k v.

(** ** The world around the refs *)

(** One pending [setTimeout(_toggleIdleState, delay)]: its handle, the
    clock value when it was scheduled and the delay it was given. *)
Record Timer : Type := mkTimer {
  t_id : nat;
  t_set : Z;
  t_delay : Z
}.

Definition due (t : Timer) : Z := t_set t + t_delay t.

Inductive Callback : Type := OnIdle | OnActive | OnAction.

(** One invocation of [emitOnIdle.current], [emitOnActive.current] or
    [emitOnAction.current]: the argument it got ([None] for the
    [undefined] a timer passes) and the refs as the callee finds them. *)
Record Call : Type := mkCall {
  c_kind : Callback;
  c_arg : option Event;
  c_seen : Refs
}.

Record World : Type := mkWorld {
  refs : Refs;
  timers : list Timer;
  nextId : nat;
  calls : list Call
}.

(** ** The state monad of the closures *)

Definition M (A : Type) : Type := World -> A * World.

Definition ret {A} (a : A) : M A := fun w => (a, w).
Definition bind {A B} (m : M A) (k : A -> M B) : M B :=
  fun w => let (a, w') := m w in k a w'.

Declare Scope js_scope.
Delimit Scope js_scope with js.
Notation "x <- m ;; k" := (bind m (fun x => k))
  (at level 61, m at next level, right associativity) : js_scope.
Notation "m ;; k" := (bind m (fun _ => k))
  (at level 61, right associativity) : js_scope.
Open Scope js_scope.

Definition exec {A} (m : M A) (w : World) : World := snd (m w).
Definition eval {A} (m : M A) (w : World) : A := fst (m w).

(** [cell.current] *)
Definition read {A} (cell : Refs -> A) : M A := fun w => (cell (refs w), w).

(** [cell.current = v] *)
Definition assign (upd : Refs -> Refs) : M unit :=
  fun w => (tt, mkWorld (upd (refs w)) (timers w) (nextId w) (calls w)).

(** [setTimeout(_toggleIdleState, delay)] *)
Definition setTimeout (now delay : Z) : M nat :=
  fun w => (nextId w,
            mkWorld (refs w) (timers w ++ [mkTimer (nextId w) now delay])
                    (S (nextId w)) (calls w)).

Definition drop_timer (n : nat) (ts : list Timer) : list Timer :=
  filter (fun t => negb (Nat.eqb (t_id t) n)) ts.

(** [clearTimeout(h)]: nothing happens for [null] or a handle that is
    no longer pending. *)
Definition clearTimeout (h : option nat) : M unit :=
  fun w => match h with
           | None => (tt, w)
           | Some n => (tt, mkWorld (refs w) (drop_timer n (timers w))
                                    (nextId w) (calls w))
           end.

(** [emitOnX.current(e)] *)
Definition emit (k : Callback) (e : option Event) : M unit :=
  fun w => (tt, mkWorld (refs w) (timers w) (nextId w)
                        (calls w ++ [mkCall k e (refs w)])).

(** ** The hook's closures *)

Section UseIdleTimer.

(** [IS_BROWSER] is imported from [./utils]; the closures only test it. *)
Variable IS_BROWSER : bool.
Variable props : Props.

(** [_bindEvents]: the listeners attached to [element] are summarised by
    the [eventsBound] flag that guards them. *)
Definition _bindEvents : M unit :=
  if negb IS_BROWSER then ret tt
  else
    bound <- read eventsBound ;;
    if negb bound then assign (set_eventsBound true) else ret tt.

Definition _unbindEvents (force : bool) : M unit :=
  if negb IS_BROWSER then ret tt
  else
    bound <- read eventsBound ;;
    if bound || force then assign (set_eventsBound false) else ret tt.

Definition _toggleIdleState (now : Z) (e : option Event) : M unit :=
  cur <- read idle ;;
  let nextIdle := negb cur in
  assign (set_idle nextIdle) ;;
  if nextIdle then
    (if stopOnIdle props then
       h <- read tId ;;
       clearTimeout h ;;
       assign (set_tId None) ;;
       _unbindEvents false
     else ret tt) ;;
    t <- read _timeout ;;
    assign (set_lastIdle (Some (now - t))) ;;
    emit OnIdle e
  else
    if negb (stopOnIdle props) then
      acc <- read idleTime ;;
      li <- read lastIdle ;;
      assign (set_idleTime (acc + (now - to_number li))) ;;
      _bindEvents ;;
      emit OnActive e
    else ret tt.

Definition getElapsedTime (now : Z) : M Z :=
  od <- read oldDate ;;
  ret (now - od).

Definition getLastIdleTime : M (option Z) := read lastIdle.

Definition getLastActiveTime : M (option Z) := read lastActive.

Definition isIdle : M bool := read idle.

Definition getRemainingTime (now : Z) : M Z :=
  r <- read remaining ;;
  match r with
  | Some rem => ret (if rem <? 0 then 0 else rem)
  | None =>
      t <- read _timeout ;;
      la <- read lastActive ;;
      let timeLeft := t - (now - to_number la) in
      ret (if timeLeft <? 0 then 0 else timeLeft)
  end.

Definition getTotalIdleTime (now : Z) : M Z :=
  cur <- read idle ;;
  li <- read lastIdle ;;
  acc <- read idleTime ;;
  if cur then ret ((now - to_number li) + acc) else ret acc.

Definition getTotalActiveTime (now : Z) : M Z :=
  el <- getElapsedTime now ;;
  ti <- getTotalIdleTime now ;;
  ret (el - ti).

(** [tId.current = setTimeout(_toggleIdleState, delay)] *)
Definition arm (now delay : Z) : M unit :=
  h <- setTimeout now delay ;;
  assign (set_tId (Some h)).

(** Lines 111-140 of [_handleEvent]: what runs once the event has passed
    the early returns. *)
Definition evaluate (now : Z) (e : Event) : M unit :=
  h <- read tId ;;
  clearTimeout h ;;
  assign (set_tId None) ;;
  la <- getLastActiveTime ;;
  let elapsedTimeSinceLastActive := now - to_number la in
  cur <- read idle ;;
  t <- read _timeout ;;
  (if (cur && negb (stopOnIdle props))
      || (negb cur && (t <? elapsedTimeSinceLastActive))
   then _toggleIdleState now (Some e) else ret tt) ;;
  assign (set_lastActive (Some now)) ;;
  assign (set_pageX (ev_pageX e)) ;;
  assign (set_pageY (ev_pageY e)) ;;
  cur' <- read idle ;;
  t' <- read _timeout ;;
  if cur' then
    (if negb (stopOnIdle props) then arm now t' else ret tt)
  else arm now t'.

(** [_handleEvent], the handler before [throttled] wraps it: an event is
    delivered when this closure is invoked with it.  The mousemove test
    compares the event's coordinates with the ref cells [pageX] and
    [pageY] themselves, as the source does. *)
Definition _handleEvent (now : Z) (e : Event) : M unit :=
  emit OnAction (Some e) ;;
  r <- read remaining ;;
  if truthy r then ret tt
  else if String.eqb (ev_type e) "mousemove" then
    if strict_eq (ev_pageX e) (JRefObject PageXCell)
       && strict_eq (ev_pageY e) (JRefObject PageYCell)
    then ret tt
    else if is_undefined (ev_pageX e) && is_undefined (ev_pageY e)
    then ret tt
    else
      elapsed <- getElapsedTime now ;;
      if elapsed <? 200 then ret tt else evaluate now e
  else evaluate now e.

Definition reset (now : Z) : M unit :=
  h <- read tId ;;
  clearTimeout h ;;
  assign (set_tId None) ;;
  _bindEvents ;;
  assign (set_idle false) ;;
  assign (set_oldDate now) ;;
  assign (set_lastActive (Some now)) ;;
  assign (set_remaining None) ;;
  t <- read _timeout ;;
  arm now t.

Definition pause (now : Z) : M unit :=
  r <- read remaining ;;
  match r with
  | Some _ => ret tt
  | None =>
      _unbindEvents false ;;
      h <- read tId ;;
      clearTimeout h ;;
      assign (set_tId None) ;;
      rem <- getRemainingTime now ;;
      assign (set_remaining (Some rem))
  end.

Definition resume (now : Z) : M unit :=
  r <- read remaining ;;
  match r with
  | None => ret tt
  | Some rem =>
      _bindEvents ;;
      cur <- read idle ;;
      if negb cur then
        arm now rem ;;
        assign (set_remaining None) ;;
        assign (set_lastActive (Some now))
      else ret tt
  end.

(** A pending timer whose delay has passed runs [_toggleIdleState] with
    no argument; it leaves the timer table, [tId.current] keeps its
    handle. *)
Definition is_pending (n : nat) (now : Z) (t : Timer) : bool :=
  Nat.eqb (t_id t) n && (due t <=? now).

Definition fire (now : Z) (n : nat) : M unit :=
  fun w =>
    if existsb (is_pending n now) (timers w)
    then _toggleIdleState now None
           (mkWorld (refs w) (drop_timer n (timers w)) (nextId w) (calls w))
    else (tt, w).

(** ** Hook lifecycle *)

(** The refs as the first render creates them at clock value [t0]. *)
Definition initial_refs (t0 : Z) : Refs :=
  mkRefs false true t0 None JNull JNull None None None 0 true (timeout props).

Definition initial_world (t0 : Z) : World :=
  mkWorld (initial_refs t0) [] 0%nat [].

Definition config_error : string :=
  "onAction can either be throttled or debounced (not both)".

(** The mount effect (lines 314-336); [inl] is the thrown [Error]. *)
Definition mount_effect (now : Z) (w : World) : string + World :=
  if (0 <? debounce props) && (0 <? throttle props) then inl config_error
  else
    inr (exec (_bindEvents ;;
               if startOnMount props then reset now else ret tt) w).

(** The [timeout] effect (lines 361-366), run with the prop's value. *)
Definition timeout_effect (now : Z) (t : Z) : M unit :=
  assign (set__timeout t) ;;
  cur <- read idle ;;
  fl <- read firstLoad ;;
  (if cur && negb fl then _toggleIdleState now None else ret tt) ;;
  h <- read tId ;;
  (match h with Some _ => reset now | None => ret tt end) ;;
  assign (set_firstLoad false).

(** Mounting: the effects run in declaration order after the first
    render; an effect that throws stops the ones after it. *)
Definition mount (now : Z) : string + World :=
  match mount_effect now (initial_world now) with
  | inl err => inl err
  | inr w => inr (exec (timeout_effect now (timeout props)) w)
  end.

(** The unmount cleanup of the mount effect. *)
Definition unmount : M unit :=
  h <- read tId ;;
  clearTimeout h ;;
  _unbindEvents true.

End UseIdleTimer.

(** ** Runs of the machine *)

(** What the outside does to a mounted hook between two [reset]s: the
    element delivers an event, or the owner calls [pause] or [resume]. *)
Inductive Activity : Type :=
| Deliver (now : Z) (e : Event)
| CallPause (now : Z)
| CallResume (now : Z).

Definition perform (IS_BROWSER : bool) (props : Props) (a : Activity) : M unit :=
  match a with
  | Deliver now e => _handleEvent IS_BROWSER props now e
  | CallPause now => pause IS_BROWSER now
  | CallResume now => resume IS_BROWSER now
  end.

Fixpoint run (IS_BROWSER : bool) (props : Props) (l : list Activity)
  (w : World) : World :=
  match l with
  | [] => w
  | a :: l' => run IS_BROWSER props l' (exec (perform IS_BROWSER props a) w)
  end.

(** The worlds a mounted hook can be in while its props stay as they
    are: the mount, then deliveries, control calls and timers firing. *)
Inductive reachable (IS_BROWSER : bool) (props : Props) : World -> Prop :=
| reach_mount now w :
    mount IS_BROWSER props now = inr w -> reachable IS_BROWSER props w
| reach_activity a w :
    reachable IS_BROWSER props w ->
    reachable IS_BROWSER props (exec (perform IS_BROWSER props a) w)
| reach_reset now w :
    reachable IS_BROWSER props w ->
    reachable IS_BROWSER props (exec (reset IS_BROWSER now) w)
| reach_fire now n w :
    reachable IS_BROWSER props w ->
    reachable IS_BROWSER props (exec (fire IS_BROWSER props now n) w).

(** [clearTimeout] on the timer table alone. *)
Definition cancel (h : option nat) (ts : list Timer) : list Timer :=
  match h with
  | None => ts
  | Some n => drop_timer n ts
  end.

(** ** The spec's reading of [getRemaining] (section 4.2) *)

(** "if paused, returns the frozen [pendingRemaining] (floored at 0);
    otherwise returns [timeout − (now − lastActiveAt)], floored at 0". *)
Definition spec_getRemaining (now : Z) (r : Refs) : Z :=
  match remaining r with
  | Some pendingRemaining => Z.max 0 pendingRemaining
  | None => Z.max 0 (_timeout r - (now - to_number (lastActive r)))
  end.

(** ** Sample configurations and events *)

(** The default props with [timeout] lowered to one second. *)
Definition second_props : Props := mkProps 1000 0 0 200 true false.

(** The same with [startOnMount] off. *)
Definition dormant_props : Props := mkProps 1000 0 0 200 false false.

(** The same with [stopOnIdle] on. *)
Definition stopping_props : Props := mkProps 1000 0 0 200 true true.

(** Both [debounce] and [throttle] set. *)
Definition clashing_props : Props := mkProps 1000 100 100 200 true false.

Definition keydown : Event := mkEvent "keydown" JUndefined JUndefined.

Definition mousemove_at (x y : Z) : Event :=
  mkEvent "mousemove" (JNum x) (JNum y).

(** The world a successful mount leaves; the untouched initial world if
    the mount effect threw. *)
Definition mounted (IS_BROWSER : bool) (props : Props) (now : Z) : World :=
  match mount IS_BROWSER props now with
  | inr w => w
  | inl _ => initial_world props now
  end.

(** One second after mounting [second_props] at clock 0 the deadline
    fires and the machine is Idle. *)
Definition idle_world : World :=
  exec (fire true second_props 1000 1) (mounted true second_props 0).

(** The same under [stopping_props]: Idle with the machine stopped. *)
Definition stopped_world : World :=
  exec (fire true stopping_props 1000 1) (mounted true stopping_props 0).

(** The refs and timer table after [resume()] found the machine paused
    and Idle: only the listeners are attached again. *)
Definition rebound (IS_BROWSER : bool) (w : World) : World :=
  mkWorld (set_eventsBound (IS_BROWSER || eventsBound (refs w)) (refs w))
          (timers w) (nextId w) (calls w).

(** The world after [emitOnAction.current(e)] and nothing else. *)
Definition noticed (e : Event) (w : World) : World :=
  mkWorld (refs w) (timers w) (nextId w)
          (calls w ++ [mkCall OnAction (Some e) (refs w)]).

(** ** Sessions *)

(** Everything that can happen to a mounted hook: an [Activity], a call
    of [reset], a pending timer running, or a render with a new
    [timeout] prop, which runs the [timeout] effect. *)
Inductive Op : Type :=
| Act (a : Activity)
| CallReset (now : Z)
| TimerFires (now : Z) (n : nat)
| TimeoutProp (now : Z) (t : Z).

Definition apply_op (IS_BROWSER : bool) (props : Props) (o : Op) : M unit :=
  match o with
  | Act a => perform IS_BROWSER props a
  | CallReset now => reset IS_BROWSER now
  | TimerFires now n => fire IS_BROWSER props now n
  | TimeoutProp now t => timeout_effect IS_BROWSER props now t
  end.

Fixpoint session (IS_BROWSER : bool) (props : Props) (l : list Op)
  (w : World) : World :=
  match l with
  | [] => w
  | o :: l' => session IS_BROWSER props l' (exec (apply_op IS_BROWSER props o) w)
  end.

Definition is_pause (o : Op) : bool :=
  match o with
  | Act (CallPause _) => true
  | _ => false
  end.

(** No [pause()] among the operations. *)
Definition pause_free (l : list Op) : bool := forallb (fun o => negb (is_pause o)) l.

(** The timer table holds at most the deadline [tId] names, scheduled
    when [lastActive] was last set and for the current [_timeout]. *)
Definition deadline_in_step (r : Refs) (ts : list Timer) : Prop :=
  ts = []
  \/ exists t, ts = [t]
               /\ tId r = Some (t_id t)
               /\ lastActive r = Some (t_set t)
               /\ t_delay t = _timeout r.

(** [remaining] is null or a non-negative number. *)
Definition remaining_ok (r : Refs) : Prop :=
  match remaining r with
  | Some left_ms => 0 <= left_ms
  | None => True
  end.

(** Whether [evaluate] flips the idle flag: an event wakes an Idle
    machine unless [stopOnIdle]; it sends an Active machine Idle when the
    last activity is more than [_timeout] back. *)
Definition flips (props : Props) (now : Z) (r : Refs) : bool :=
  (idle r && negb (stopOnIdle props))
  || (negb (idle r) && (_timeout r <? now - to_number (lastActive r))).

(** Whether [evaluate] leaves without arming: Idle under [stopOnIdle]. *)
Definition stays_stopped (props : Props) (now : Z) (r : Refs) : bool :=
  xorb (idle r) (flips props now r) && stopOnIdle props.

(** Not paused, with the timer table in step with the refs. *)
Definition in_step (w : World) : Prop :=
  remaining (refs w) = None /\ deadline_in_step (refs w) (timers w).

(** The early returns of [_handleEvent] (lines 91-109) as one test. *)
Definition returns_early (now : Z) (e : Event) (r : Refs) : bool :=
  truthy (remaining r)
  || (String.eqb (ev_type e) "mousemove"
      && ((strict_eq (ev_pageX e) (JRefObject PageXCell)
           && strict_eq (ev_pageY e) (JRefObject PageYCell))
          || (is_undefined (ev_pageX e) && is_undefined (ev_pageY e))
          || (now - oldDate r <? 200))).

(** Deliveries of a list of timed events, in order. *)
Definition deliveries (l : list (Z * Event)) : list Activity :=
  map (fun te => Deliver (fst te) (snd te)) l.

(** A session with every kind of operation, [pause()] included. *)
Definition busy_session : list Op :=
  [Act (Deliver 300 keydown); Act (CallPause 500); Act (CallResume 600);
   TimerFires 1300 3; TimeoutProp 1500 2000; Act (Deliver 5000 keydown);
   Act (CallPause 5100); CallReset 6000].

(** A session in which [pause()] is never called. *)
Definition unpaused_session : list Op :=
  [Act (Deliver 300 keydown); Act (CallResume 600);
   Act (Deliver 700 (mousemove_at 1 2)); TimeoutProp 800 2000;
   Act (Deliver 4000 keydown); CallReset 4100].

(** ** Proof tools *)

Ltac open_world w :=
  let r := fresh "r" in
  destruct w as [r ? ? ?]; destruct r; cbn in *.

Ltac step_js :=
  unfold exec, eval, bind, ret, read, assign, emit, arm, setTimeout,
    clearTimeout; cbn.

Ltac split_ifs :=
  repeat match goal with
         | |- context [if ?c then _ else _] => destruct c; cbn
         | |- context [match ?c with Some _ => _ | None => _ end] =>
             destruct c; cbn
         end.

Lemma floor_is_max (x : Z) : (if x <? 0 then 0 else x) = Z.max 0 x.
Proof. destruct (Z.ltb_spec x 0); lia. Qed.

Lemma strict_eq_number_cell (v : jsval) (c : RefCell) :
  (forall d, v <> JRefObject d) -> strict_eq v (JRefObject c) = false.
Proof. intros H; destruct v; try reflexivity; destruct (H c0); reflexivity. Qed.

(** ** Accessors *)

(** C7. [getRemainingTime()] returns the frozen [pendingRemaining]
    floored at 0 while [remaining] is non-null, and otherwise
    [timeout − (now − lastActiveAt)] floored at 0; the result is never
    negative and the call leaves every ref, timer and callback trace as
    it found them. *)
Theorem getRemainingTime_spec (now : Z) (w : World) :
  getRemainingTime now w = (spec_getRemaining now (refs w), w)
  /\ 0 <= eval (getRemainingTime now) w
  /\ exec (getRemainingTime now) w = w.
Proof.
  assert (E : getRemainingTime now w = (spec_getRemaining now (refs w), w)).
  { open_world w. unfold getRemainingTime, spec_getRemaining. step_js.
    destruct remaining0; cbn; now rewrite floor_is_max. }
  unfold eval, exec. rewrite E. cbn. repeat split.
  unfold spec_getRemaining. destruct (remaining (refs w)); lia.
Qed.

(** ** Control operations *)

Lemma pause_when_paused (b : bool) (now : Z) (w : World) (p : Z) :
  remaining (refs w) = Some p -> pause b now w = (tt, w).
Proof. intros H. open_world w. subst. reflexivity. Qed.

Lemma pause_sets_remaining (b : bool) (now : Z) (w : World) :
  exists p, remaining (refs (exec (pause b now) w)) = Some p.
Proof.
  open_world w. unfold pause. step_js.
  destruct remaining0 as [p|]; cbn.
  - now exists p.
  - unfold _unbindEvents, getRemainingTime. step_js.
    destruct b; cbn; [destruct eventsBound0; cbn|];
      destruct tId0; cbn; eexists; reflexivity.
Qed.

Lemma resume_when_running (b : bool) (now : Z) (w : World) :
  remaining (refs w) = None -> resume b now w = (tt, w).
Proof. intros H. open_world w. subst. reflexivity. Qed.

(** C8. [pause()] and [resume()] are idempotent: from every state, a
    second call in a row (at the same or a later clock value) leaves the
    state the first call produced. *)
Theorem pause_resume_idempotent (b : bool) (now1 now2 : Z) (w : World) :
  exec (pause b now2) (exec (pause b now1) w) = exec (pause b now1) w
  /\ exec (resume b now2) (exec (resume b now1) w) = exec (resume b now1) w.
Proof.
  split.
  - destruct (pause_sets_remaining b now1 w) as [p Hp].
    unfold exec at 1. now rewrite (pause_when_paused _ _ _ _ Hp).
  - open_world w. unfold resume, _bindEvents. step_js.
    destruct remaining0 as [p|]; cbn; [|reflexivity].
    destruct b, eventsBound0, idle0; reflexivity.
Qed.

(** [reset()] from any world at all, in terms of the [_timeout] cell. *)
Lemma reset_from_any_state (b : bool) (now : Z) (w : World)
  (Hpos : 0 <= _timeout (refs w)) :
  let w' := exec (reset b now) w in
  eval isIdle w' = false
  /\ lastActive (refs w') = Some now
  /\ oldDate (refs w') = now
  /\ remaining (refs w') = None
  /\ eventsBound (refs w') = (b || eventsBound (refs w))
  /\ tId (refs w') = Some (nextId w)
  /\ timers w' = cancel (tId (refs w)) (timers w)
                 ++ [mkTimer (nextId w) now (_timeout (refs w))]
  /\ calls w' = calls w
  /\ eval (getRemainingTime now) w' = _timeout (refs w).
Proof.
  open_world w. unfold reset, _bindEvents, getRemainingTime, isIdle. step_js.
  destruct tId0; cbn; destruct b; cbn; try destruct eventsBound0; cbn;
    repeat split; try reflexivity;
    rewrite floor_is_max; lia.
Qed.

(** *** The [_timeout] cell of a reachable world holds the prop *)

Lemma toggle_timeout (b : bool) (p : Props) (now : Z) (e : option Event)
  (w : World) :
  _timeout (refs (exec (_toggleIdleState b p now e) w)) = _timeout (refs w).
Proof.
  open_world w. unfold _toggleIdleState, _bindEvents, _unbindEvents. step_js.
  split_ifs; reflexivity.
Qed.

Lemma evaluate_timeout (b : bool) (p : Props) (now : Z) (e : Event)
  (w : World) :
  _timeout (refs (exec (evaluate b p now e) w)) = _timeout (refs w).
Proof.
  open_world w.
  unfold evaluate, getLastActiveTime, _toggleIdleState, _bindEvents,
    _unbindEvents.
  step_js. split_ifs; reflexivity.
Qed.

Lemma handleEvent_timeout (b : bool) (p : Props) (now : Z) (e : Event)
  (w : World) :
  _timeout (refs (exec (_handleEvent b p now e) w)) = _timeout (refs w).
Proof.
  pose proof (evaluate_timeout b p now e
                (mkWorld (refs w) (timers w) (nextId w)
                   (calls w ++ [mkCall OnAction (Some e) (refs w)]))) as K.
  destruct w as [r ts n cs]. cbn in *.
  unfold _handleEvent, getElapsedTime. step_js.
  destruct (truthy (remaining r)); cbn; [reflexivity|].
  destruct (String.eqb (ev_type e) "mousemove"); [|exact K].
  destruct (strict_eq (ev_pageX e) (JRefObject PageXCell)
            && strict_eq (ev_pageY e) (JRefObject PageYCell));
    cbn; [reflexivity|].
  destruct (is_undefined (ev_pageX e) && is_undefined (ev_pageY e));
    cbn; [reflexivity|].
  destruct (now - oldDate r <? 200); cbn; [reflexivity | exact K].
Qed.

Lemma pause_timeout (b : bool) (now : Z) (w : World) :
  _timeout (refs (exec (pause b now) w)) = _timeout (refs w).
Proof.
  open_world w. unfold pause, _unbindEvents, getRemainingTime. step_js.
  split_ifs; reflexivity.
Qed.

Lemma resume_timeout (b : bool) (now : Z) (w : World) :
  _timeout (refs (exec (resume b now) w)) = _timeout (refs w).
Proof.
  open_world w. unfold resume, _bindEvents. step_js.
  split_ifs; reflexivity.
Qed.

Lemma reset_timeout (b : bool) (now : Z) (w : World) :
  _timeout (refs (exec (reset b now) w)) = _timeout (refs w).
Proof.
  open_world w. unfold reset, _bindEvents. step_js.
  split_ifs; reflexivity.
Qed.

Lemma fire_timeout (b : bool) (p : Props) (now : Z) (n : nat) (w : World) :
  _timeout (refs (exec (fire b p now n) w)) = _timeout (refs w).
Proof.
  unfold exec, fire.
  destruct (existsb (is_pending n now) (timers w)); [|reflexivity].
  exact (toggle_timeout b p now None
           (mkWorld (refs w) (drop_timer n (timers w)) (nextId w) (calls w))).
Qed.

Lemma mount_timeout (b : bool) (p : Props) (now : Z) (w : World) :
  mount b p now = inr w -> _timeout (refs w) = timeout p.
Proof.
  unfold mount, mount_effect.
  destruct ((0 <? debounce p) && (0 <? throttle p)); [discriminate|].
  intros H. injection H as <-.
  destruct (startOnMount p), b; reflexivity.
Qed.

Lemma reachable_timeout (b : bool) (p : Props) (w : World) :
  reachable b p w -> _timeout (refs w) = timeout p.
Proof.
  induction 1 as [now w Hm | a w _ IH | now w _ IH | now n w _ IH].
  - exact (mount_timeout b p now w Hm).
  - rewrite <- IH. destruct a; cbn.
    + apply handleEvent_timeout.
    + apply pause_timeout.
    + apply resume_timeout.
  - rewrite <- IH. apply reset_timeout.
  - rewrite <- IH. apply fire_timeout.
Qed.

(** C3. From every reachable state [reset()] runs to completion and
    leaves the machine Active: [isIdle()] is false, [lastActive] and
    [oldDate] hold the clock value of the call, [remaining] is null, the
    listeners are attached, the previous deadline is cancelled and [tId]
    names a fresh timer scheduled at the call for [timeout]; with the
    timeout non-negative, [getRemainingTime()] read at the same clock
    value returns [timeout]. *)
Theorem reset_restarts (b : bool) (p : Props) (now : Z) (w : World) :
  reachable b p w ->
  0 <= timeout p ->
  let w' := exec (reset b now) w in
  eval isIdle w' = false
  /\ lastActive (refs w') = Some now
  /\ oldDate (refs w') = now
  /\ remaining (refs w') = None
  /\ eventsBound (refs w') = (b || eventsBound (refs w))
  /\ tId (refs w') = Some (nextId w)
  /\ timers w' = cancel (tId (refs w)) (timers w)
                 ++ [mkTimer (nextId w) now (timeout p)]
  /\ calls w' = calls w
  /\ eval (getRemainingTime now) w' = timeout p.
Proof.
  intros Hr Hpos. rewrite <- (reachable_timeout b p w Hr) in *.
  exact (reset_from_any_state b now w Hpos).
Qed.

(** ** Frozen idle state under [stopOnIdle] *)

Section StopOnIdle.

Variable IS_BROWSER : bool.
Variable props : Props.
Hypothesis stop : stopOnIdle props = true.

Lemma evaluate_keeps_idle (now : Z) (e : Event) (w : World) :
  idle (refs w) = true ->
  idle (refs (exec (evaluate IS_BROWSER props now e) w)) = true.
Proof.
  intros H. open_world w. subst. unfold evaluate, getLastActiveTime.
  rewrite stop. step_js. rewrite ?stop.
  destruct tId0; reflexivity.
Qed.

Lemma handleEvent_keeps_idle (now : Z) (e : Event) (w : World) :
  idle (refs w) = true ->
  idle (refs (exec (_handleEvent IS_BROWSER props now e) w)) = true.
Proof.
  intros H.
  pose proof (evaluate_keeps_idle now e
                (mkWorld (refs w) (timers w) (nextId w)
                   (calls w ++ [mkCall OnAction (Some e) (refs w)])) H) as K.
  destruct w as [r ts n cs]. cbn in *.
  unfold _handleEvent, getElapsedTime. step_js.
  destruct (truthy (remaining r)); cbn; [exact H|].
  destruct (String.eqb (ev_type e) "mousemove"); [|exact K].
  destruct (strict_eq (ev_pageX e) (JRefObject PageXCell)
            && strict_eq (ev_pageY e) (JRefObject PageYCell)); cbn; [exact H|].
  destruct (is_undefined (ev_pageX e) && is_undefined (ev_pageY e));
    cbn; [exact H|].
  destruct (now - oldDate r <? 200); cbn; [exact H | exact K].
Qed.

Lemma pause_keeps_idle (now : Z) (w : World) :
  idle (refs (exec (pause IS_BROWSER now) w)) = idle (refs w).
Proof.
  open_world w. unfold pause, _unbindEvents, getRemainingTime. step_js.
  destruct remaining0; cbn; [reflexivity|].
  destruct IS_BROWSER; cbn; [destruct eventsBound0; cbn|];
    destruct tId0; reflexivity.
Qed.

Lemma resume_keeps_idle (now : Z) (w : World) :
  idle (refs w) = true ->
  idle (refs (exec (resume IS_BROWSER now) w)) = true.
Proof.
  intros H. open_world w. subst. unfold resume, _bindEvents. step_js.
  destruct remaining0; cbn; [|reflexivity].
  destruct IS_BROWSER; cbn; [destruct eventsBound0|]; reflexivity.
Qed.

Lemma perform_keeps_idle (a : Activity) (w : World) :
  idle (refs w) = true ->
  idle (refs (exec (perform IS_BROWSER props a) w)) = true.
Proof.
  intros H. destruct a; cbn.
  - now apply handleEvent_keeps_idle.
  - now rewrite pause_keeps_idle.
  - now apply resume_keeps_idle.
Qed.

Lemma run_keeps_idle (l : list Activity) (w : World) :
  idle (refs w) = true ->
  idle (refs (run IS_BROWSER props l w)) = true.
Proof.
  revert w. induction l as [|a l IH]; intros w H; cbn.
  - exact H.
  - apply IH. now apply perform_keeps_idle.
Qed.

(** The Active→Idle transition itself, under [stopOnIdle]: the deadline
    is cancelled, [tId] is null and the listeners are detached. *)
Lemma toggle_to_idle_stops (now : Z) (e : option Event) (w : World) :
  idle (refs w) = false ->
  let w' := exec (_toggleIdleState IS_BROWSER props now e) w in
  idle (refs w') = true
  /\ tId (refs w') = None
  /\ timers w' = cancel (tId (refs w)) (timers w)
  /\ eventsBound (refs w') = (negb IS_BROWSER && eventsBound (refs w)).
Proof.
  intros H. open_world w. subst. unfold _toggleIdleState, _unbindEvents.
  rewrite stop. step_js.
  destruct tId0; cbn; destruct IS_BROWSER; cbn;
    try destruct eventsBound0; cbn; repeat split.
Qed.

End StopOnIdle.

(** C4. With [stopOnIdle] set, once the machine is Idle no delivered
    event flips it back: after any sequence of delivered events (and of
    [pause()] and [resume()] calls between them) [isIdle()] is still
    true, whether the sequence starts in an Idle state or right after
    the transition that made an Active state Idle; only [reset()]
    leaves the state. *)
Theorem stopOnIdle_freezes_idle (b : bool) (props : Props)
  (l : list Activity) (w : World) :
  stopOnIdle props = true ->
  (eval isIdle w = true -> eval isIdle (run b props l w) = true)
  /\ (eval isIdle w = false ->
      forall now e,
        eval isIdle (run b props l (exec (_toggleIdleState b props now e) w))
        = true).
Proof.
  intros Hs. unfold eval, isIdle, read. cbn. split.
  - intros Hi. now apply run_keeps_idle.
  - intros Hi now e. apply run_keeps_idle; [exact Hs|].
    now apply (toggle_to_idle_stops b props Hs now e w).
Qed.

(** ** Setup *)

Lemma mount_effect_throws (b : bool) (p : Props) (now : Z) (w : World) :
  0 < debounce p -> 0 < throttle p -> mount_effect b p now w = inl config_error.
Proof.
  intros Hd Ht. unfold mount_effect.
  destruct (Z.ltb_spec 0 (debounce p)); [|lia].
  destruct (Z.ltb_spec 0 (throttle p)); [|lia]. reflexivity.
Qed.

Lemma mount_effect_succeeds (b : bool) (p : Props) (now : Z) (w : World) :
  ~ (0 < debounce p /\ 0 < throttle p) ->
  mount_effect b p now w
  = inr (exec (_bindEvents b ;;
               if startOnMount p then reset b now else ret tt) w).
Proof.
  intros H. unfold mount_effect.
  destruct (Z.ltb_spec 0 (debounce p)); [|reflexivity].
  destruct (Z.ltb_spec 0 (throttle p)); [|reflexivity].
  destruct H; split; assumption.
Qed.

(** C5. Setup throws the configuration error exactly when both
    [debounce > 0] and [throttle > 0]; the throw is the outcome of the
    mount itself, and for every other pair of values the mount returns a
    world and no error. *)
Theorem mount_throws_iff_both (b : bool) (p : Props) (now : Z) :
  (mount b p now = inl config_error <-> 0 < debounce p /\ 0 < throttle p)
  /\ ((exists w, mount b p now = inr w)
      <-> ~ (0 < debounce p /\ 0 < throttle p)).
Proof.
  unfold mount.
  destruct (Z_lt_dec 0 (debounce p)) as [Hd|Hd];
    [destruct (Z_lt_dec 0 (throttle p)) as [Ht|Ht]|].
  - rewrite (mount_effect_throws b p now _ Hd Ht). split; split.
    + intros _. now split.
    + reflexivity.
    + intros [w H]. discriminate.
    + intros H. destruct H. now split.
  - assert (N : ~ (0 < debounce p /\ 0 < throttle p)) by tauto.
    rewrite (mount_effect_succeeds b p now _ N). split; split.
    + discriminate.
    + tauto.
    + intros _. exact N.
    + intros _. eexists. reflexivity.
  - assert (N : ~ (0 < debounce p /\ 0 < throttle p)) by tauto.
    rewrite (mount_effect_succeeds b p now _ N). split; split.
    + discriminate.
    + tauto.
    + intros _. exact N.
    + intros _. eexists. reflexivity.
Qed.

Lemma mount_started (b : bool) (p : Props) (now : Z) :
  startOnMount p = true ->
  ~ (0 < debounce p /\ 0 < throttle p) ->
  mount b p now
  = inr (mkWorld
           (mkRefs b false now None JNull JNull (Some 1%nat) (Some now) None
                   0 false (timeout p))
           [mkTimer 1 now (timeout p)] 2 []).
Proof.
  intros Hs N. unfold mount. rewrite (mount_effect_succeeds b p now _ N), Hs.
  destruct b; reflexivity.
Qed.

Lemma mount_dormant (b : bool) (p : Props) (now : Z) :
  startOnMount p = false ->
  ~ (0 < debounce p /\ 0 < throttle p) ->
  mount b p now
  = inr (mkWorld
           (mkRefs b true now None JNull JNull None None None
                   0 false (timeout p))
           [] 0 []).
Proof.
  intros Hs N. unfold mount. rewrite (mount_effect_succeeds b p now _ N), Hs.
  destruct b; reflexivity.
Qed.

(** ** The Active→Idle transition *)

Lemma toggle_to_idle_backdates (b : bool) (p : Props) (now : Z)
  (e : option Event) (w : World) :
  idle (refs w) = false ->
  let w' := exec (_toggleIdleState b p now e) w in
  idle (refs w') = true
  /\ lastIdle (refs w') = Some (now - _timeout (refs w))
  /\ calls w' = calls w ++ [mkCall OnIdle e (refs w')].
Proof.
  intros H. open_world w. subst. unfold _toggleIdleState, _unbindEvents.
  step_js.
  destruct (stopOnIdle p); cbn; [|repeat split].
  destruct tId0; cbn; destruct b; cbn; try destruct eventsBound0; cbn;
    repeat split.
Qed.

Lemma fire_before_due (b : bool) (p : Props) (now t0 d : Z) (n : nat)
  (r : Refs) (k : nat) (cs : list Call) :
  now < t0 + d ->
  fire b p now n (mkWorld r [mkTimer n t0 d] k cs)
  = (tt, mkWorld r [mkTimer n t0 d] k cs).
Proof.
  intros H. unfold fire, is_pending, due. cbn.
  destruct (Z.leb_spec (t0 + d) now); [lia|].
  now rewrite andb_false_r.
Qed.

Lemma quiet_second_goes_idle (b : bool) (p : Props) (t0 slack : Z) (w : World) :
  timeout p = 1000 ->
  startOnMount p = true ->
  mount b p t0 = inr w ->
  0 <= slack ->
  exists n r,
    tId (refs w) = Some n
    /\ (forall now, now < t0 + 1000 -> exec (fire b p now n) w = w)
    /\ calls (exec (fire b p (t0 + 1000 + slack) n) w) = [mkCall OnIdle None r]
    /\ idle r = true
    /\ lastIdle r = Some (t0 + slack).
Proof.
  intros Ht Hs Hm Hslack.
  assert (N : ~ (0 < debounce p /\ 0 < throttle p)).
  { intros [Hd Hth]. unfold mount in Hm.
    rewrite (mount_effect_throws b p t0 _ Hd Hth) in Hm. discriminate. }
  rewrite (mount_started b p t0 Hs N) in Hm. injection Hm as <-.
  rewrite Ht.
  set (r0 := mkRefs b false t0 None JNull JNull (Some 1%nat) (Some t0) None
                    0 false 1000).
  pose proof (toggle_to_idle_backdates b p (t0 + 1000 + slack) None
                (mkWorld r0 [] 2 []) eq_refl) as (Hi & Hl & Hc).
  exists 1%nat. eexists. split; [reflexivity|]. split.
  - intros now Hnow. unfold exec. now rewrite fire_before_due.
  - unfold exec, fire, is_pending, due. cbn.
    destruct (Z.leb_spec (t0 + 1000) (t0 + 1000 + slack)); [|lia]. cbn.
    unfold exec in Hi, Hl, Hc. cbn in Hi, Hl, Hc.
    split; [exact Hc|]. split; [exact Hi|].
    rewrite Hl. f_equal. lia.
Qed.

(** C6. Every Active→Idle transition records [lastIdle] as the clock
    value of the transition minus the timeout, before [onIdle] is
    called.  In particular, with [timeout = 1000] and no event after
    creation at [t0], the deadline cannot fire before [t0 + 1000], and
    when it fires [slack] milliseconds late the one [onIdle] call finds
    [isIdle()] true and [getLastIdleTime()] equal to [t0 + slack]. *)
Theorem lastIdle_backdated :
  (forall (b : bool) (p : Props) (now : Z) (e : option Event) (w : World),
      idle (refs w) = false ->
      let w' := exec (_toggleIdleState b p now e) w in
      eval isIdle w' = true
      /\ eval getLastIdleTime w' = Some (now - _timeout (refs w))
      /\ calls w' = calls w ++ [mkCall OnIdle e (refs w')])
  /\ (forall (b : bool) (p : Props) (t0 slack : Z) (w : World),
         timeout p = 1000 ->
         startOnMount p = true ->
         mount b p t0 = inr w ->
         0 <= slack ->
         exists n r,
           tId (refs w) = Some n
           /\ (forall now, now < t0 + 1000 -> exec (fire b p now n) w = w)
           /\ calls (exec (fire b p (t0 + 1000 + slack) n) w)
              = [mkCall OnIdle None r]
           /\ idle r = true
           /\ lastIdle r = Some (t0 + slack)).
Proof.
  split.
  - intros b p now e w H. exact (toggle_to_idle_backdates b p now e w H).
  - exact quiet_second_goes_idle.
Qed.

(** ** Construction without [startOnMount] *)

Lemma first_event_wakes (b : bool) (p : Props) (now t : Z) (e : Event) :
  stopOnIdle p = false ->
  String.eqb (ev_type e) "mousemove" = false ->
  let w := mkWorld (mkRefs b true now None JNull JNull None None None
                           0 false (timeout p)) [] 0 [] in
  idle (refs (exec (_handleEvent b p t e) w)) = false.
Proof.
  intros Hs He. unfold _handleEvent, evaluate, _toggleIdleState, _bindEvents,
    getLastActiveTime.
  step_js. rewrite He. cbn. repeat (rewrite Hs; cbn).
  destruct b; reflexivity.
Qed.

Lemma first_event_outcome (b : bool) (p : Props) (now t : Z) (e : Event) :
  stopOnIdle p = false ->
  let w := mkWorld (mkRefs b true now None JNull JNull None None None
                           0 false (timeout p)) [] 0 [] in
  idle (refs (exec (_handleEvent b p t e) w)) = returns_early t e (refs w).
Proof.
  intros Hs. unfold returns_early, _handleEvent, evaluate, _toggleIdleState,
    _bindEvents, getLastActiveTime, getElapsedTime.
  step_js.
  destruct (String.eqb (ev_type e) "mousemove"); cbn.
  - destruct (strict_eq (ev_pageX e) (JRefObject PageXCell)
              && strict_eq (ev_pageY e) (JRefObject PageYCell));
      cbn; [reflexivity|].
    destruct (is_undefined (ev_pageX e) && is_undefined (ev_pageY e));
      cbn; [reflexivity|].
    destruct (t - now <? 200); cbn; [reflexivity|].
    repeat (rewrite Hs; cbn). destruct b; reflexivity.
  - repeat (rewrite Hs; cbn). destruct b; reflexivity.
Qed.

(** C9 (amended). For a core constructed with [startOnMount = false],
    [isIdle()] returns true immediately after construction: the idle
    flag is initialised to true and construction leaves it set because
    [reset()] does not run; no idle transition has occurred (no callback
    was invoked, no deadline is armed) and [getLastIdleTime()] returns
    null.  When [stopOnIdle] is true the flag then stays set under every
    sequence of delivered events, [pause()] and [resume()].  When
    [stopOnIdle] is false, an event delivered as the first operation
    after construction clears the flag exactly when [_handleEvent] does
    not return early on it: every event other than a mousemove clears
    it, a mousemove with numeric coordinates that arrives 200 ms or more
    after construction clears it, and a mousemove with both coordinates
    undefined or arriving less than 200 ms after construction leaves it
    set. *)
Theorem dormant_after_mount (b : bool) (p : Props) (now : Z) :
  startOnMount p = false ->
  ~ (0 < debounce p /\ 0 < throttle p) ->
  exists w,
    mount b p now = inr w
    /\ eval isIdle w = true
    /\ eval getLastIdleTime w = None
    /\ tId (refs w) = None
    /\ timers w = []
    /\ calls w = []
    /\ (stopOnIdle p = true ->
        forall l, eval isIdle (run b p l w) = true)
    /\ (stopOnIdle p = false ->
        forall t e, String.eqb (ev_type e) "mousemove" = false ->
                    eval isIdle (exec (_handleEvent b p t e) w) = false)
    /\ (stopOnIdle p = false ->
        forall t e,
          eval isIdle (exec (_handleEvent b p t e) w)
          = returns_early t e (refs w))
    /\ (stopOnIdle p = false ->
        forall t x y,
          200 <= t - now ->
          eval isIdle (exec (_handleEvent b p t (mousemove_at x y)) w)
          = false)
    /\ (stopOnIdle p = false ->
        forall t e,
          ev_type e = "mousemove"%string ->
          (ev_pageX e = JUndefined /\ ev_pageY e = JUndefined)
          \/ t - now < 200 ->
          eval isIdle (exec (_handleEvent b p t e) w) = true).
Proof.
  intros Hs N. eexists. split; [exact (mount_dormant b p now Hs N)|].
  do 5 (split; [reflexivity|]).
  split; [|split; [|split; [|split]]].
  - intros Hstop l. unfold eval, isIdle, read. cbn.
    now apply run_keeps_idle.
  - intros Hstop t e He. unfold eval, isIdle, read. cbn.
    now apply first_event_wakes.
  - intros Hstop t e. unfold eval, isIdle, read. cbn [fst].
    exact (first_event_outcome b p now t e Hstop).
  - intros Hstop t x y Ht. unfold eval, isIdle, read. cbn [fst].
    rewrite (first_event_outcome b p now t (mousemove_at x y) Hstop).
    unfold returns_early. cbn.
    destruct (Z.ltb_spec (t - now) 200); [lia | reflexivity].
  - intros Hstop t e He Hc. unfold eval, isIdle, read. cbn [fst].
    rewrite (first_event_outcome b p now t e Hstop).
    unfold returns_early. cbn. rewrite He. cbn.
    destruct Hc as [[Hx Hy] | Hc].
    + rewrite Hx, Hy. reflexivity.
    + destruct (Z.ltb_spec (t - now) 200); [|lia].
      now rewrite !orb_true_r.
Qed.

(** ** Paused machines *)

Lemma resume_paused_idle (b : bool) (now : Z) (w : World) (p : Z) :
  remaining (refs w) = Some p ->
  idle (refs w) = true ->
  exec (resume b now) w = rebound b w.
Proof.
  intros Hr Hi. open_world w. subst. unfold resume, _bindEvents, rebound.
  step_js. destruct b, eventsBound0; reflexivity.
Qed.

Lemma handleEvent_while_paused (b : bool) (p : Props) (now : Z) (e : Event)
  (w : World) :
  truthy (remaining (refs w)) = true ->
  _handleEvent b p now e w = (tt, noticed e w).
Proof.
  intros H. destruct w as [r ts n cs]. cbn in *.
  unfold _handleEvent, noticed. step_js. now rewrite H.
Qed.

Lemma handleEvent_zero_remaining (b : bool) (p : Props) (now : Z) (e : Event)
  (w : World) :
  remaining (refs w) = Some 0 ->
  String.eqb (ev_type e) "mousemove" = false ->
  _handleEvent b p now e w = evaluate b p now e (noticed e w).
Proof.
  intros H He. destruct w as [r ts n cs]. cbn in *.
  unfold _handleEvent, noticed. step_js. rewrite H, He. reflexivity.
Qed.

Lemma pause_resume_running (b : bool) (now : Z) (w : World) :
  idle (refs w) = false ->
  remaining (refs w) = None ->
  let before := eval (getRemainingTime now) w in
  let w' := exec (resume b now) (exec (pause b now) w) in
  timers w' = cancel (tId (refs w)) (timers w)
              ++ [mkTimer (nextId w) now before]
  /\ eval (getRemainingTime now) w' = Z.max 0 (_timeout (refs w)).
Proof.
  intros Hi Hr. open_world w. subst.
  unfold pause, resume, _unbindEvents, _bindEvents, getRemainingTime.
  step_js.
  destruct b; cbn; [destruct eventsBound0; cbn|]; destruct tId0; cbn;
    (split; [reflexivity|]); rewrite floor_is_max; f_equal; lia.
Qed.

(** ** The pointer test *)

Lemma pointer_test_never_matches (x y : Z) :
  strict_eq (JNum x) (JRefObject PageXCell)
  && strict_eq (JNum y) (JRefObject PageYCell) = false.
Proof. reflexivity. Qed.

Lemma mousemove_reaches_evaluate (b : bool) (p : Props) (now x y : Z)
  (w : World) :
  truthy (remaining (refs w)) = false ->
  200 <= now - oldDate (refs w) ->
  _handleEvent b p now (mousemove_at x y) w
  = evaluate b p now (mousemove_at x y) (noticed (mousemove_at x y) w).
Proof.
  intros Hr He. destruct w as [r ts n cs]. cbn in *.
  unfold _handleEvent, getElapsedTime, noticed. step_js. rewrite Hr. cbn.
  destruct (Z.ltb_spec (now - oldDate r) 200); [lia|reflexivity].
Qed.

(** ** Concrete runs *)

(** C1. One second timeout, mounted at clock 0, paused and resumed at
    clock 400: [getRemainingTime()] reads 600 just before [pause()] and
    1000 right after [resume()], while the deadline [resume()] armed is
    due 600 ms later.  [resume()] restarts [lastActive], which
    [getRemainingTime()] measures from. *)
Theorem resume_reports_full_timeout :
  let w := mounted true second_props 0 in
  let w' := exec (resume true 400) (exec (pause true 400) w) in
  eval isIdle w = false
  /\ remaining (refs w) = None
  /\ eval (getRemainingTime 400) w = 600
  /\ eval (getRemainingTime 400) w' = 1000
  /\ timers w' = [mkTimer 2 400 600].
Proof. vm_compute. repeat split. Qed.

(** C2. One second timeout, mounted at clock 0.  A mousemove at (10, 20)
    at clock 300 is recorded; the same mousemove at clock 600 carries
    the recorded coordinates and is not discarded: [lastActive] moves to
    600 and the deadline is replaced by one scheduled at 600. *)
Theorem repeated_mousemove_rearms :
  let e := mousemove_at 10 20 in
  let w := exec (_handleEvent true second_props 300 e)
                (mounted true second_props 0) in
  let w' := exec (_handleEvent true second_props 600 e) w in
  strict_eq (ev_pageX e) (pageX (refs w)) = true
  /\ strict_eq (ev_pageY e) (pageY (refs w)) = true
  /\ lastActive (refs w) = Some 300
  /\ tId (refs w) = Some 2%nat
  /\ timers w = [mkTimer 2 300 1000]
  /\ lastActive (refs w') = Some 600
  /\ tId (refs w') = Some 3%nat
  /\ timers w' = [mkTimer 3 600 1000].
Proof. vm_compute. repeat split. Qed.

(** C9, as stated, fails: constructed with [startOnMount = false] and
    [stopOnIdle = false], the flag does not stay set under every run
    without [reset()]; a keydown delivered at clock 500 clears it. *)
Lemma idle_flag_cleared_without_reset :
  startOnMount dormant_props = false
  /\ eval isIdle (mounted true dormant_props 0) = true
  /\ ~ (forall l : list Activity,
           eval isIdle (run true dormant_props l (mounted true dormant_props 0))
           = true).
Proof.
  split; [reflexivity|]. split; [reflexivity|].
  intros H. specialize (H [Deliver 500 keydown]). vm_compute in H.
  discriminate.
Qed.

(** C10. The machine went Idle at clock 1000 and is paused at 1500:
    [remaining] is frozen at 0.  [resume()] at 1600 attaches the
    listeners, keeps [remaining] at 0 and arms nothing.  The keydown
    delivered at 1700 calls [onAction] and is then evaluated in full, as
    [remaining.current] is falsy: the machine turns Active, [onActive]
    is called, [lastActive] moves and a deadline is armed, with
    [remaining] still 0.  The next [resume()] arms a second deadline
    beside it. *)
Theorem resumed_idle_event_evaluated :
  let paused := exec (pause true 1500) idle_world in
  let resumed := exec (resume true 1600) paused in
  let after := exec (_handleEvent true second_props 1700 keydown) resumed in
  let again := exec (resume true 1800) after in
  (idle (refs paused) = true
   /\ remaining (refs paused) = Some 0
   /\ eventsBound (refs paused) = false)
  /\ (eventsBound (refs resumed) = true
      /\ remaining (refs resumed) = Some 0
      /\ tId (refs resumed) = None
      /\ timers resumed = [])
  /\ (map c_kind (calls after) = [OnIdle; OnAction; OnActive]
      /\ idle (refs after) = false
      /\ lastActive (refs after) = Some 1700
      /\ remaining (refs after) = Some 0
      /\ timers after = [mkTimer 2 1700 1000])
  /\ timers again = [mkTimer 2 1700 1000; mkTimer 3 1800 0].
Proof. vm_compute. repeat split. Qed.

(** ** Checks on the sample configurations *)

Example mount_second_props :
  mount true second_props 0
  = inr (mkWorld
           (mkRefs true false 0 None JNull JNull (Some 1%nat) (Some 0) None
                   0 false 1000)
           [mkTimer 1 0 1000] 2 []).
Proof. reflexivity. Qed.

Example mount_clashing_props :
  mount true clashing_props 0 = inl config_error.
Proof. reflexivity. Qed.

Example remaining_counts_down :
  map (fun now => eval (getRemainingTime now) (mounted true second_props 0))
      [0; 250; 1000; 1300]
  = [1000; 750; 0; 0].
Proof. reflexivity. Qed.

Example stopped_world_is_stopped :
  idle (refs stopped_world) = true
  /\ eventsBound (refs stopped_world) = false
  /\ tId (refs stopped_world) = None
  /\ timers stopped_world = [].
Proof. vm_compute. repeat split. Qed.

Example unmount_clears :
  timers (exec (unmount true) (mounted true second_props 0)) = []
  /\ eventsBound (refs (exec (unmount true) (mounted true second_props 0)))
     = false.
Proof. vm_compute. split; reflexivity. Qed.

(** ** Instances *)

Lemma idle_world_reachable : reachable true second_props idle_world.
Proof.
  unfold idle_world. apply reach_fire, (reach_mount _ _ 0).
  vm_compute. reflexivity.
Defined.

Lemma reset_restarts_witness :
  reachable true second_props idle_world
  /\ 0 <= timeout second_props
  /\ eval isIdle (exec (reset true 2000) idle_world) = false
  /\ eval (getRemainingTime 2000) (exec (reset true 2000) idle_world) = 1000.
Proof.
  assert (H : 0 <= timeout second_props) by (cbn; lia).
  pose proof (reset_restarts true second_props 2000 idle_world
                idle_world_reachable H) as W.
  cbv zeta in W.
  split; [exact idle_world_reachable|]. split; [exact H|].
  split; apply W.
Defined.

Lemma stopOnIdle_freezes_idle_witness :
  stopOnIdle stopping_props = true
  /\ eval isIdle stopped_world = true
  /\ eval isIdle
       (run true stopping_props
            [Deliver 1200 keydown; CallPause 1300; CallResume 1400;
             Deliver 1500 (mousemove_at 3 4)]
            stopped_world) = true.
Proof.
  split; [reflexivity|]. split; [reflexivity|].
  apply (stopOnIdle_freezes_idle true stopping_props); reflexivity.
Defined.

Lemma lastIdle_backdated_witness :
  idle (refs (mounted true second_props 0)) = false
  /\ eval getLastIdleTime
       (exec (_toggleIdleState true second_props 1007 None)
             (mounted true second_props 0)) = Some 7
  /\ exists n r,
       tId (refs (mounted true second_props 0)) = Some n
       /\ calls (exec (fire true second_props (0 + 1000 + 7) n)
                      (mounted true second_props 0))
          = [mkCall OnIdle None r]
       /\ idle r = true
       /\ lastIdle r = Some (0 + 7).
Proof.
  split; [reflexivity|]. split.
  - apply (proj1 lastIdle_backdated true second_props 1007 None
             (mounted true second_props 0) eq_refl).
  - destruct (proj2 lastIdle_backdated true second_props 0 7
                (mounted true second_props 0) eq_refl eq_refl eq_refl)
      as (n & r & H1 & _ & H3 & H4 & H5); [lia|].
    exists n, r. repeat split; assumption.
Defined.

Lemma dormant_after_mount_witness :
  startOnMount dormant_props = false
  /\ ~ (0 < debounce dormant_props /\ 0 < throttle dormant_props)
  /\ exists w, mount true dormant_props 0 = inr w
               /\ eval isIdle w = true
               /\ eval getLastIdleTime w = None.
Proof.
  assert (N : ~ (0 < debounce dormant_props /\ 0 < throttle dormant_props))
    by (cbn; lia).
  split; [reflexivity|]. split; [exact N|].
  destruct (dormant_after_mount true dormant_props 0 eq_refl N)
    as (w & H1 & H2 & H3 & _).
  exists w. repeat split; assumption.
Defined.

(** ** What one evaluated event does *)

Ltac unfold_closures :=
  unfold timeout_effect, unmount, fire, perform, reset, pause, resume,
    _handleEvent, evaluate, getTotalActiveTime, getTotalIdleTime,
    getRemainingTime, getElapsedTime, getLastActiveTime, getLastIdleTime,
    isIdle, _toggleIdleState, _bindEvents, _unbindEvents in *;
  step_js.

Lemma evaluate_effect (b : bool) (p : Props) (now : Z) (e : Event) (w : World) :
  let r := refs w in
  let w' := exec (evaluate b p now e) w in
  idle (refs w') = xorb (idle r) (flips p now r)
  /\ lastActive (refs w') = Some now
  /\ pageX (refs w') = ev_pageX e
  /\ pageY (refs w') = ev_pageY e
  /\ remaining (refs w') = remaining r
  /\ _timeout (refs w') = _timeout r
  /\ oldDate (refs w') = oldDate r
  /\ tId (refs w')
     = (if stays_stopped p now r then None else Some (nextId w))
  /\ timers w'
     = cancel (tId r) (timers w)
       ++ (if stays_stopped p now r then []
           else [mkTimer (nextId w) now (_timeout r)]).
Proof.
  open_world w. unfold stays_stopped, flips. cbn.
  unfold_closures.
  destruct idle0, (stopOnIdle p), tId0, b; cbn;
    try destruct eventsBound0; cbn;
    try destruct (_timeout0 <? now - to_number lastActive0); cbn;
    repeat split; now rewrite ?app_nil_r.
Qed.

(** ** The deadline and the refs stay in step while nobody pauses *)

Ltac close_step :=
  split; [reflexivity|];
  first [ left; reflexivity
        | right; eexists; repeat split; reflexivity ].

Ltac open_step H w :=
  destruct w as [r ts k cs]; destruct r; cbn in *;
  destruct H as [Hr [Ht | [t (Ht & Hi & Hl & Hd)]]]; cbn in *; subst;
  [| destruct t as [i s d]; cbn in * ]; rewrite ?Nat.eqb_refl; cbn.

Lemma toggle_in_step b p now e w :
  in_step w -> in_step (exec (_toggleIdleState b p now e) w).
Proof.
  intros H. unfold in_step, deadline_in_step in *. open_step H w.
  - unfold_closures. 
    destruct idle0, (stopOnIdle p), tId0, b; cbn; try destruct eventsBound0; cbn; close_step.
  - unfold_closures. rewrite ?Nat.eqb_refl.
    destruct idle0, (stopOnIdle p), b; cbn; try destruct eventsBound0; cbn; rewrite ?Nat.eqb_refl; cbn; close_step.
Qed.

Lemma evaluate_in_step b p now e w :
  in_step w -> in_step (exec (evaluate b p now e) w).
Proof.
  intros H. unfold in_step, deadline_in_step in *. open_step H w.
  - unfold_closures.
    destruct idle0, (stopOnIdle p), tId0, b; cbn; try destruct eventsBound0; cbn;
      try destruct (_timeout0 <? now - to_number lastActive0); cbn; close_step.
  - unfold_closures. rewrite ?Nat.eqb_refl.
    destruct idle0, (stopOnIdle p), b; cbn; try destruct eventsBound0; cbn;
      try destruct (d <? now - s); cbn; close_step.
Qed.

Lemma noticed_in_step e w : in_step w -> in_step (noticed e w).
Proof. destruct w; exact (fun H => H). Qed.

Lemma handleEvent_cases b p now e w :
  _handleEvent b p now e w
  = if returns_early now e (refs w) then (tt, noticed e w)
    else evaluate b p now e (noticed e w).
Proof.
  destruct w as [r ts n cs]. unfold returns_early, _handleEvent, noticed, getElapsedTime.
  step_js.
  destruct (truthy (remaining r)); cbn; [reflexivity|].
  destruct (String.eqb (ev_type e) "mousemove"); cbn; [|reflexivity].
  destruct (strict_eq (ev_pageX e) (JRefObject PageXCell)
            && strict_eq (ev_pageY e) (JRefObject PageYCell)); cbn; [reflexivity|].
  destruct (is_undefined (ev_pageX e) && is_undefined (ev_pageY e)); cbn; [reflexivity|].
  destruct (now - oldDate r <? 200); reflexivity.
Qed.

Lemma handleEvent_in_step b p now e w :
  in_step w -> in_step (exec (_handleEvent b p now e) w).
Proof.
  intros H. unfold exec. rewrite handleEvent_cases.
  destruct (returns_early now e (refs w)).
  - now apply noticed_in_step.
  - apply evaluate_in_step. now apply noticed_in_step.
Qed.

Lemma reset_in_step b now w :
  in_step w -> in_step (exec (reset b now) w).
Proof.
  intros H. unfold in_step, deadline_in_step in *. open_step H w.
  - unfold_closures. destruct tId0, b; cbn; try destruct eventsBound0; cbn; close_step.
  - unfold_closures. rewrite ?Nat.eqb_refl. destruct b; cbn; try destruct eventsBound0; cbn; close_step.
Qed.

Lemma resume_in_step b now w :
  in_step w -> in_step (exec (resume b now) w).
Proof.
  intros H. unfold exec. now rewrite (resume_when_running b now w (proj1 H)).
Qed.

Lemma fire_in_step b p now n w :
  in_step w -> in_step (exec (fire b p now n) w).
Proof.
  intros H. unfold exec, fire.
  destruct (existsb (is_pending n now) (timers w)) eqn:E; [|exact H].
  apply toggle_in_step. unfold in_step, deadline_in_step in *. cbn.
  destruct H as [Hr [Ht | [t (Ht & Hi & Hl & Hd)]]]; (split; [exact Hr|]).
  - left. now rewrite Ht.
  - rewrite Ht in *. cbn in *. unfold is_pending in E.
    destruct (Nat.eqb (t_id t) n); cbn in *; [left; reflexivity | discriminate].
Qed.

Lemma timeout_effect_in_step b p now ms w :
  in_step w -> in_step (exec (timeout_effect b p now ms) w).
Proof.
  intros H. unfold in_step, deadline_in_step in *. open_step H w.
  - unfold_closures.
    destruct idle0, firstLoad0, (stopOnIdle p), tId0, b; cbn; try destruct eventsBound0; cbn; close_step.
  - unfold_closures. rewrite ?Nat.eqb_refl.
    destruct idle0, firstLoad0, (stopOnIdle p), b; cbn; try destruct eventsBound0; cbn; rewrite ?Nat.eqb_refl; cbn; close_step.
Qed.

Lemma mount_in_step (b : bool) (p : Props) (now : Z) (w : World) :
  mount b p now = inr w -> in_step w.
Proof.
  unfold mount, mount_effect.
  destruct ((0 <? debounce p) && (0 <? throttle p)); [discriminate|].
  intros H. injection H as <-.
  unfold in_step, deadline_in_step.
  destruct (startOnMount p), b; cbn; close_step.
Qed.

Lemma apply_op_in_step (b : bool) (p : Props) (o : Op) (w : World) :
  is_pause o = false -> in_step w -> in_step (exec (apply_op b p o) w).
Proof.
  intros Hp H. destruct o as [[now e|now|now]|now|now n|now ms]; cbn in *.
  - now apply handleEvent_in_step.
  - discriminate.
  - now apply resume_in_step.
  - now apply reset_in_step.
  - now apply fire_in_step.
  - now apply timeout_effect_in_step.
Qed.

Lemma session_in_step (b : bool) (p : Props) (l : list Op) (w : World) :
  pause_free l = true -> in_step w -> in_step (session b p l w).
Proof.
  revert w. induction l as [|o l IH]; intros w Hl H; cbn in *.
  - exact H.
  - apply andb_prop in Hl as [Ho Hl]. apply IH; [exact Hl|].
    apply apply_op_in_step; [|exact H].
    now destruct (is_pause o).
Qed.

Lemma getRemainingTime_eval (now : Z) (w : World) :
  eval (getRemainingTime now) w = spec_getRemaining now (refs w).
Proof.
  open_world w. unfold getRemainingTime, spec_getRemaining. step_js.
  destruct remaining0; cbn; now rewrite floor_is_max.
Qed.

Lemma in_step_remaining (w : World) (now : Z) (t : Timer) :
  in_step w -> In t (timers w) ->
  tId (refs w) = Some (t_id t)
  /\ eval (getRemainingTime now) w = Z.max 0 (due t - now).
Proof.
  intros [Hr [Ht | [t' (Ht & Hi & Hl & Hd)]]] Hin; rewrite Ht in Hin.
  - destruct Hin.
  - destruct Hin as [<- | []]. split; [exact Hi|].
    rewrite getRemainingTime_eval.
    unfold spec_getRemaining, due. rewrite Hr, Hl, <- Hd. cbn. f_equal. lia.
Qed.

(** X1. Single deadline.  In a session that starts at the mount and in
    which [pause()] is never called (events, [resume()], [reset()],
    timers firing and [timeout] prop changes in any order), at most one
    timer is pending at any moment, [tId] holds its handle, and
    [getRemainingTime()] agrees with it: it returns the time left until
    that timer is due, floored at 0. *)
Theorem unpaused_single_deadline (b : bool) (p : Props) (t0 : Z) (w0 : World)
  (l : list Op) :
  mount b p t0 = inr w0 ->
  pause_free l = true ->
  let w := session b p l w0 in
  remaining (refs w) = None
  /\ (List.length (timers w) <= 1)%nat
  /\ forall t now,
       In t (timers w) ->
       tId (refs w) = Some (t_id t)
       /\ eval (getRemainingTime now) w = Z.max 0 (due t - now).
Proof.
  intros Hm Hl.
  pose proof (session_in_step b p l w0 Hl (mount_in_step b p t0 w0 Hm)) as H.
  cbv zeta. split; [exact (proj1 H)|]. split.
  - destruct H as [_ [Ht | [t (Ht & _)]]]; rewrite Ht; cbn; lia.
  - intros t now Hin. now apply in_step_remaining.
Qed.

(** X2. Unmount after a pause-free session leaves no timer pending, and
    in a browser the listeners are detached. *)
Theorem unmount_leaves_nothing (b : bool) (p : Props) (t0 : Z) (w0 : World)
  (l : list Op) :
  mount b p t0 = inr w0 ->
  pause_free l = true ->
  let w := exec (unmount b) (session b p l w0) in
  timers w = [] /\ (b = true -> eventsBound (refs w) = false).
Proof.
  intros Hm Hl.
  pose proof (session_in_step b p l w0 Hl (mount_in_step b p t0 w0 Hm)) as H.
  cbv zeta. destruct (session b p l w0) as [r ts k cs].
  unfold in_step, deadline_in_step in H. cbn in H.
  destruct H as [_ [Ht | [t (Ht & Hi & _)]]]; subst ts.
  - unfold_closures. destruct (tId r), b; cbn;
      try destruct (eventsBound r); cbn; split; try reflexivity;
      intros; try discriminate; destruct r; reflexivity.
  - unfold_closures. rewrite Hi. cbn. rewrite Nat.eqb_refl. cbn.
    destruct b; cbn; try destruct (eventsBound r); cbn; split;
      try reflexivity; intros; try discriminate; destruct r; reflexivity.
Qed.

(** ** [remaining] is never negative *)

Lemma toggle_remaining (b : bool) (p : Props) (now : Z) (e : option Event)
  (w : World) :
  remaining (refs (exec (_toggleIdleState b p now e) w)) = remaining (refs w).
Proof.
  open_world w. unfold_closures. split_ifs; reflexivity.
Qed.

Lemma handleEvent_remaining (b : bool) (p : Props) (now : Z) (e : Event)
  (w : World) :
  remaining (refs (exec (_handleEvent b p now e) w)) = remaining (refs w).
Proof.
  unfold exec. rewrite handleEvent_cases.
  destruct (returns_early now e (refs w)).
  - destruct w; reflexivity.
  - destruct (evaluate_effect b p now e (noticed e w))
      as (_ & _ & _ & _ & H & _).
    unfold exec in H. rewrite H. destruct w; reflexivity.
Qed.

Lemma apply_op_remaining_ok (b : bool) (p : Props) (o : Op) (w : World) :
  remaining_ok (refs w) -> remaining_ok (refs (exec (apply_op b p o) w)).
Proof.
  intros H. unfold remaining_ok in *.
  destruct o as [[now e|now|now]|now|now n|now ms]; cbn.
  - now rewrite handleEvent_remaining.
  - open_world w. unfold_closures.
    destruct remaining0; cbn; [exact H|].
    destruct b; cbn; [destruct eventsBound0; cbn|]; destruct tId0; cbn;
      rewrite floor_is_max; lia.
  - open_world w. unfold_closures.
    destruct remaining0; cbn; [|exact I].
    destruct b; cbn; [destruct eventsBound0; cbn|]; destruct idle0; cbn;
      first [exact H | exact I].
  - open_world w. unfold_closures.
    destruct tId0, b; cbn; try destruct eventsBound0; exact I.
  - unfold exec, fire.
    destruct (existsb (is_pending n now) (timers w)); [|exact H].
    pose proof (toggle_remaining b p now None
                  (mkWorld (refs w) (drop_timer n (timers w)) (nextId w)
                           (calls w))) as E.
    unfold exec in E. now rewrite E.
  - open_world w. unfold_closures.
    destruct idle0, firstLoad0, (stopOnIdle p), tId0, b; cbn;
      try destruct eventsBound0; cbn; first [exact H | exact I].
Qed.

Lemma session_remaining_ok (b : bool) (p : Props) (l : list Op) (w : World) :
  remaining_ok (refs w) -> remaining_ok (refs (session b p l w)).
Proof.
  revert w. induction l as [|o l IH]; intros w H; cbn.
  - exact H.
  - apply IH. now apply apply_op_remaining_ok.
Qed.

(** X3. Whatever happens after the mount ([pause()] included),
    [remaining] is null or a non-negative number; so while it is set
    [getRemainingTime()] returns exactly the stored value, at every clock
    value: the floor at 0 of the paused branch never applies. *)
Theorem remaining_never_negative (b : bool) (p : Props) (t0 : Z) (w0 : World)
  (l : list Op) :
  mount b p t0 = inr w0 ->
  forall left_ms,
    remaining (refs (session b p l w0)) = Some left_ms ->
    0 <= left_ms
    /\ forall now, eval (getRemainingTime now) (session b p l w0) = left_ms.
Proof.
  intros Hm left_ms Hr.
  assert (H0 : remaining_ok (refs w0)).
  { unfold remaining_ok. now rewrite (proj1 (mount_in_step b p t0 w0 Hm)). }
  pose proof (session_remaining_ok b p l w0 H0) as H.
  unfold remaining_ok in H. rewrite Hr in H. split; [exact H|].
  intros now. rewrite getRemainingTime_eval. unfold spec_getRemaining.
  rewrite Hr. lia.
Qed.

(** ** Outside a browser *)

Lemma apply_op_headless (p : Props) (o : Op) (w : World) :
  eventsBound (refs (exec (apply_op false p o) w)) = eventsBound (refs w).
Proof.
  destruct o as [[now e|now|now]|now|now n|now ms]; cbn.
  - unfold exec. rewrite handleEvent_cases.
    destruct (returns_early now e (refs w)); [destruct w; reflexivity|].
    destruct w as [r ts k cs]. destruct r. unfold noticed. cbn.
    unfold_closures. split_ifs; reflexivity.
  - open_world w. unfold_closures. split_ifs; reflexivity.
  - open_world w. unfold_closures. split_ifs; reflexivity.
  - open_world w. unfold_closures. split_ifs; reflexivity.
  - unfold exec, fire.
    destruct (existsb (is_pending n now) (timers w)); [|reflexivity].
    destruct w as [r ts k cs]. destruct r. cbn.
    unfold_closures. split_ifs; reflexivity.
  - open_world w. unfold_closures. split_ifs; reflexivity.
Qed.

Lemma session_headless (p : Props) (l : list Op) (w : World) :
  eventsBound (refs w) = false ->
  eventsBound (refs (session false p l w)) = false.
Proof.
  revert w. induction l as [|o l IH]; intros w H; cbn.
  - exact H.
  - apply IH. now rewrite apply_op_headless.
Qed.

(** X4. With [IS_BROWSER] false no listener is ever attached:
    [eventsBound] is false after the mount and after every operation of
    any session. *)
Theorem headless_never_binds (p : Props) (t0 : Z) (w0 : World) (l : list Op) :
  mount false p t0 = inr w0 ->
  eventsBound (refs (session false p l w0)) = false.
Proof.
  intros Hm. apply session_headless.
  revert Hm. unfold mount, mount_effect.
  destruct ((0 <? debounce p) && (0 <? throttle p)); [discriminate|].
  intros H. injection H as <-. destruct (startOnMount p); reflexivity.
Qed.

(** ** Delivered events, case by case *)

(** X5. An event that passes the early returns while the machine is
    Active and the last activity is at most [_timeout] back only
    postpones the deadline: [onAction] is called, the pending deadline is
    cancelled and a new one is scheduled at the event for [_timeout],
    [lastActive] and the pointer are recorded, and nothing else
    changes. *)
Theorem event_postpones_deadline (b : bool) (p : Props) (now : Z) (e : Event)
  (w : World) :
  idle (refs w) = false ->
  returns_early now e (refs w) = false ->
  now - to_number (lastActive (refs w)) <= _timeout (refs w) ->
  exec (_handleEvent b p now e) w
  = mkWorld
      (set_pageY (ev_pageY e)
         (set_pageX (ev_pageX e)
            (set_lastActive (Some now)
               (set_tId (Some (nextId w)) (refs w)))))
      (cancel (tId (refs w)) (timers w)
       ++ [mkTimer (nextId w) now (_timeout (refs w))])
      (S (nextId w))
      (calls w ++ [mkCall OnAction (Some e) (refs w)]).
Proof.
  intros Hi He Hd. unfold exec. rewrite handleEvent_cases, He.
  open_world w. subst. unfold noticed. cbn.
  destruct tId0; unfold_closures;
    (destruct (Z.ltb_spec _timeout0 (now - to_number lastActive0)); [lia|]);
    reflexivity.
Qed.

Lemma existsb_last (f : Timer -> bool) (ts : list Timer) (t : Timer) :
  f t = true -> existsb f (ts ++ [t]) = true.
Proof.
  intros H. rewrite existsb_app. cbn. rewrite H.
  now rewrite orb_true_r.
Qed.

Lemma fire_wakes (b : bool) (p : Props) (later : Z) (k : nat) (w : World) :
  idle (refs w) = true ->
  stopOnIdle p = false ->
  existsb (is_pending k later) (timers w) = true ->
  let w' := exec (fire b p later k) w in
  idle (refs w') = false
  /\ idleTime (refs w')
     = idleTime (refs w) + (later - to_number (lastIdle (refs w)))
  /\ exists r, calls w' = calls w ++ [mkCall OnActive None r].
Proof.
  intros Hi Hs Hp. cbv zeta. unfold exec, fire. rewrite Hp.
  open_world w. subst. unfold_closures. rewrite Hs. cbn.
  destruct b; cbn; try destruct eventsBound0; cbn;
    repeat split; eexists; reflexivity.
Qed.

Lemma evaluate_goes_idle (b : bool) (p : Props) (now : Z) (e : Event)
  (w : World) :
  idle (refs w) = false ->
  _timeout (refs w) < now - to_number (lastActive (refs w)) ->
  let w' := exec (evaluate b p now e) w in
  lastIdle (refs w') = Some (now - _timeout (refs w))
  /\ exists r, calls w' = calls w ++ [mkCall OnIdle (Some e) r].
Proof.
  intros Hi Hd. open_world w. subst.
  destruct tId0, b, eventsBound0, (stopOnIdle p) eqn:Hs; unfold_closures;
    rewrite ?Hs; cbn;
    (destruct (Z.ltb_spec _timeout0 (now - to_number lastActive0)); [|lia]);
    cbn; rewrite ?Hs; cbn; split; try reflexivity; eexists; reflexivity.
Qed.

(** X6. An event that passes the early returns while the machine is
    Active but the last activity is more than [_timeout] back sends the
    machine Idle: [onAction] and then [onIdle] are called with the event,
    [lastIdle] is back-dated to the event minus [_timeout] and
    [lastActive] is the event.  Under [stopOnIdle] nothing is armed.
    Otherwise a deadline is armed at the event, and when it fires the
    machine turns Active again and [onActive] is called without an
    event. *)
Theorem overdue_event_goes_idle (b : bool) (p : Props) (now : Z) (e : Event)
  (w : World) :
  idle (refs w) = false ->
  returns_early now e (refs w) = false ->
  _timeout (refs w) < now - to_number (lastActive (refs w)) ->
  let w' := exec (_handleEvent b p now e) w in
  eval isIdle w' = true
  /\ lastIdle (refs w') = Some (now - _timeout (refs w))
  /\ lastActive (refs w') = Some now
  /\ (exists r, calls w'
                = calls w ++ [mkCall OnAction (Some e) (refs w);
                              mkCall OnIdle (Some e) r])
  /\ (stopOnIdle p = true ->
      tId (refs w') = None /\ timers w' = cancel (tId (refs w)) (timers w))
  /\ (stopOnIdle p = false ->
      tId (refs w') = Some (nextId w)
      /\ timers w' = cancel (tId (refs w)) (timers w)
                     ++ [mkTimer (nextId w) now (_timeout (refs w))]
      /\ forall later,
           now + _timeout (refs w) <= later ->
           let w'' := exec (fire b p later (nextId w)) w' in
           eval isIdle w'' = false
           /\ exists r, calls w'' = calls w' ++ [mkCall OnActive None r]).
Proof.
  intros Hi He Hd. cbv zeta. unfold exec, eval, isIdle, read.
  rewrite handleEvent_cases, He. cbn [fst].
  destruct w as [r0 ts k cs]. unfold noticed.
  cbn [refs timers nextId calls] in *.
  set (w1 := mkWorld r0 ts k (cs ++ [mkCall OnAction (Some e) r0])).
  destruct (evaluate_effect b p now e w1)
    as (E1 & E2 & _ & _ & _ & _ & _ & E3 & E4).
  destruct (evaluate_goes_idle b p now e w1 Hi Hd) as (G1 & r & G2).
  unfold exec in *. fold w1.
  set (w2 := snd (evaluate b p now e w1)) in *. clearbody w2.
  cbn in E1, E3, E4, G1, G2.
  assert (F : flips p now r0 = true).
  { unfold flips. rewrite Hi. cbn. now apply Z.ltb_lt. }
  unfold stays_stopped in *. rewrite F, Hi in *. cbn in E1, E3, E4.
  split; [exact E1|]. split; [exact G1|]. split; [exact E2|].
  split; [exists r; rewrite G2, <- app_assoc; reflexivity|].
  split.
  - intros Hs. rewrite Hs in *. rewrite app_nil_r in E4. now split.
  - intros Hs. rewrite Hs in *. split; [exact E3|]. split; [exact E4|].
    intros later Hl.
    assert (P : existsb (is_pending k later) (timers w2) = true).
    { rewrite E4. apply existsb_last. unfold is_pending, due. cbn.
      rewrite Nat.eqb_refl. cbn. apply Z.leb_le. exact Hl. }
    destruct (fire_wakes b p later k w2 E1 Hs P) as (W1 & _ & W2).
    unfold exec in W1, W2. split; [exact W1 | exact W2].
Qed.

Lemma evaluate_wakes (b : bool) (p : Props) (now : Z) (e : Event) (w : World) :
  idle (refs w) = true ->
  stopOnIdle p = false ->
  let w' := exec (evaluate b p now e) w in
  idleTime (refs w')
  = idleTime (refs w) + (now - to_number (lastIdle (refs w)))
  /\ lastIdle (refs w') = lastIdle (refs w)
  /\ eventsBound (refs w') = (b || eventsBound (refs w))
  /\ exists r, idle r = false
               /\ calls w' = calls w ++ [mkCall OnActive (Some e) r].
Proof.
  intros Hi Hs. open_world w. subst.
  destruct tId0, b, eventsBound0; unfold_closures; rewrite ?Hs; cbn;
    rewrite ?Hs; cbn; repeat split; eexists; (split; [|reflexivity]);
    reflexivity.
Qed.

(** X7. An event that passes the early returns while the machine is
    Idle and [stopOnIdle] is off turns it Active: [onAction] and then
    [onActive] are called with the event ([onActive] already sees
    [isIdle()] false), the time since [lastIdle] is added to
    [idleTime], the listeners are attached, [lastActive] is the event
    and a deadline is armed at the event for [_timeout]. *)
Theorem event_wakes_idle (b : bool) (p : Props) (now : Z) (e : Event)
  (w : World) :
  idle (refs w) = true ->
  stopOnIdle p = false ->
  returns_early now e (refs w) = false ->
  let w' := exec (_handleEvent b p now e) w in
  eval isIdle w' = false
  /\ idleTime (refs w')
     = idleTime (refs w) + (now - to_number (lastIdle (refs w)))
  /\ lastIdle (refs w') = lastIdle (refs w)
  /\ eventsBound (refs w') = (b || eventsBound (refs w))
  /\ lastActive (refs w') = Some now
  /\ tId (refs w') = Some (nextId w)
  /\ timers w' = cancel (tId (refs w)) (timers w)
                 ++ [mkTimer (nextId w) now (_timeout (refs w))]
  /\ exists r, idle r = false
               /\ calls w' = calls w ++ [mkCall OnAction (Some e) (refs w);
                                         mkCall OnActive (Some e) r].
Proof.
  intros Hi Hs He. cbv zeta. unfold exec, eval, isIdle, read.
  rewrite handleEvent_cases, He. cbn [fst].
  destruct w as [r0 ts k cs]. unfold noticed.
  cbn [refs timers nextId calls] in *.
  set (w1 := mkWorld r0 ts k (cs ++ [mkCall OnAction (Some e) r0])).
  destruct (evaluate_effect b p now e w1)
    as (E1 & E2 & _ & _ & _ & _ & _ & E3 & E4).
  destruct (evaluate_wakes b p now e w1 Hi Hs) as (G1 & G2 & G3 & r & G4 & G5).
  unfold exec in *. fold w1.
  set (w2 := snd (evaluate b p now e w1)) in *. clearbody w2.
  cbn in E1, E3, E4, G1, G2, G3, G5.
  assert (F : flips p now r0 = true).
  { unfold flips. now rewrite Hi, Hs. }
  unfold stays_stopped in *. rewrite F, Hi, Hs in *. cbn in E1, E3, E4.
  repeat split; try assumption.
  exists r. split; [exact G4|]. rewrite G5, <- app_assoc. reflexivity.
Qed.

(** X8. A mousemove whose two coordinates are both undefined, or one
    that arrives less than 200 ms after [oldDate] (the mount or the last
    [reset()]), is dropped after [onAction] was called: no ref changes
    and the deadline stays as it is. *)
Theorem mousemove_dropped (b : bool) (p : Props) (now : Z) (e : Event)
  (w : World) :
  ev_type e = "mousemove"%string ->
  (ev_pageX e = JUndefined /\ ev_pageY e = JUndefined)
  \/ now - oldDate (refs w) < 200 ->
  exec (_handleEvent b p now e) w = noticed e w.
Proof.
  intros Ht Hc. unfold exec. rewrite handleEvent_cases.
  assert (E : returns_early now e (refs w) = true).
  { unfold returns_early. rewrite Ht. cbn.
    destruct (truthy (remaining (refs w))); [reflexivity|]. cbn.
    destruct Hc as [[Hx Hy] | Hc].
    - rewrite Hx, Hy. reflexivity.
    - destruct (Z.ltb_spec (now - oldDate (refs w)) 200); [|lia].
      now rewrite !orb_true_r. }
  now rewrite E.
Qed.

(** X9. While [remaining] holds a non-zero number, delivered events do
    nothing but call [onAction]: after any sequence of them the refs and
    the timer table are as before and the trace has grown by one
    [onAction] call per event. *)
Theorem paused_events_only_notice (b : bool) (p : Props)
  (l : list (Z * Event)) (w : World) :
  truthy (remaining (refs w)) = true ->
  let w' := run b p (deliveries l) w in
  refs w' = refs w
  /\ timers w' = timers w
  /\ nextId w' = nextId w
  /\ calls w' = calls w
                ++ map (fun te => mkCall OnAction (Some (snd te)) (refs w)) l.
Proof.
  intros H. cbv zeta. unfold deliveries. revert w H.
  induction l as [|[now e] l IH]; intros w H; cbn.
  - now rewrite app_nil_r.
  - unfold exec. rewrite (handleEvent_while_paused b p now e w H). cbn [snd].
    assert (H' : truthy (remaining (refs (noticed e w))) = true)
      by (destruct w; exact H).
    destruct (IH (noticed e w) H') as (I1 & I2 & I3 & I4).
    rewrite I1, I2, I3, I4. destruct w; cbn.
    repeat split. now rewrite <- app_assoc.
Qed.

(** ** Pausing *)

(** X10. [pause()] on a machine that is not paused cancels the deadline
    [tId] names, clears [tId], sets the [eventsBound] flag to false (in
    a browser; outside one the flag stays as it is), calls no callback
    and freezes the remaining time: from then on [getRemainingTime()]
    returns, at every clock value, what it returned at the clock value
    of the [pause()] call. *)
Theorem pause_freezes_remaining (b : bool) (now later : Z) (w : World) :
  remaining (refs w) = None ->
  let w' := exec (pause b now) w in
  eval (getRemainingTime later) w' = eval (getRemainingTime now) w
  /\ remaining (refs w') = Some (eval (getRemainingTime now) w)
  /\ tId (refs w') = None
  /\ timers w' = cancel (tId (refs w)) (timers w)
  /\ eventsBound (refs w') = (negb b && eventsBound (refs w))
  /\ idle (refs w') = idle (refs w)
  /\ lastActive (refs w') = lastActive (refs w)
  /\ calls w' = calls w.
Proof.
  intros H. open_world w. subst. unfold_closures.
  destruct b; cbn; [destruct eventsBound0; cbn|]; destruct tId0; cbn;
    repeat split;
    destruct (Z.ltb_spec (_timeout0 - (now - to_number lastActive0)) 0);
    cbn; try reflexivity;
    destruct (Z.ltb_spec (_timeout0 - (now - to_number lastActive0)) 0);
    lia.
Qed.

(** X11. [pause()] at one moment and [resume()] at another, on an Active
    machine that was not paused: [resume()] arms a deadline for the time
    that was left at the [pause()], attaches the listeners, clears
    [remaining] and restarts [lastActive]; from then on
    [getRemainingTime()] counts down from the full [_timeout], starting
    at the [resume()], whatever the armed delay. *)
Theorem pause_resume_rearms (b : bool) (now1 now2 now3 : Z) (w : World) :
  idle (refs w) = false ->
  remaining (refs w) = None ->
  let w' := exec (resume b now2) (exec (pause b now1) w) in
  remaining (refs w') = None
  /\ lastActive (refs w') = Some now2
  /\ eventsBound (refs w') = (b || eventsBound (refs w))
  /\ tId (refs w') = Some (nextId w)
  /\ timers w' = cancel (tId (refs w)) (timers w)
                 ++ [mkTimer (nextId w) now2 (eval (getRemainingTime now1) w)]
  /\ eval (getRemainingTime now3) w'
     = Z.max 0 (_timeout (refs w) - (now3 - now2)).
Proof.
  intros Hi Hr. open_world w. subst. unfold_closures.
  destruct b; cbn; [destruct eventsBound0; cbn|]; destruct tId0; cbn;
    repeat split; now rewrite floor_is_max.
Qed.

(** ** A new [timeout] prop *)

(** X12. A render with a new [timeout] after the first one stores it in
    [_timeout] and leaves [isIdle()] false whatever the state was.  An
    Idle machine is flipped to Active; unless [stopOnIdle], [onActive]
    is then called exactly once, with no event ([undefined]), and finds
    [isIdle()] false and the new [_timeout]; in every other case no
    callback is called.  If [tId] holds a handle, pending or already
    fired, [reset()] runs and a deadline for the new timeout is armed at
    that moment; if [tId] is null nothing is armed and [remaining] and
    [lastActive] stay. *)
Theorem timeout_change_activates (b : bool) (p : Props) (now ms : Z)
  (w : World) :
  firstLoad (refs w) = false ->
  let w' := exec (timeout_effect b p now ms) w in
  _timeout (refs w') = ms
  /\ eval isIdle w' = false
  /\ map c_kind (calls w')
     = map c_kind (calls w)
       ++ (if idle (refs w) && negb (stopOnIdle p) then [OnActive] else [])
  /\ (if idle (refs w) && negb (stopOnIdle p)
      then exists r, idle r = false
                     /\ _timeout r = ms
                     /\ calls w' = calls w ++ [mkCall OnActive None r]
      else calls w' = calls w)
  /\ match tId (refs w) with
     | Some h =>
         tId (refs w') = Some (nextId w)
         /\ timers w' = drop_timer h (timers w) ++ [mkTimer (nextId w) now ms]
         /\ remaining (refs w') = None
         /\ lastActive (refs w') = Some now
         /\ oldDate (refs w') = now
     | None =>
         tId (refs w') = None
         /\ timers w' = timers w
         /\ remaining (refs w') = remaining (refs w)
         /\ lastActive (refs w') = lastActive (refs w)
     end.
Proof.
  intros H. open_world w. subst.
  destruct idle0, (stopOnIdle p) eqn:Hs, tId0, b; unfold_closures;
    rewrite ?Hs; cbn; try destruct eventsBound0; cbn;
    rewrite ?map_app, ?app_nil_r; repeat split;
    (eexists; (split; [|split]); [ | | reflexivity]; reflexivity).
Qed.

(** ** Idle and active time *)

(** X13. The accessors as a stopwatch.  [getTotalActiveTime()] and
    [getTotalIdleTime()] always add up to [getElapsedTime()].  While the
    machine is Active the idle total stands still and the active total
    runs with the clock; while it is Idle the active total stands still
    and the idle total runs with the clock. *)
Theorem totals_run_like_a_stopwatch (now1 now2 : Z) (w : World) :
  eval (getTotalActiveTime now1) w + eval (getTotalIdleTime now1) w
  = eval (getElapsedTime now1) w
  /\ (idle (refs w) = false ->
      eval (getTotalIdleTime now2) w = eval (getTotalIdleTime now1) w
      /\ eval (getTotalActiveTime now2) w - eval (getTotalActiveTime now1) w
         = now2 - now1)
  /\ (idle (refs w) = true ->
      eval (getTotalActiveTime now2) w = eval (getTotalActiveTime now1) w
      /\ eval (getTotalIdleTime now2) w - eval (getTotalIdleTime now1) w
         = now2 - now1).
Proof.
  open_world w. unfold_closures.
  destruct idle0; cbn; repeat split; intros; try discriminate; lia.
Qed.

(** X14. [reset()] restarts the elapsed clock but keeps the idle
    bookkeeping: [idleTime] and [lastIdle] are untouched, so right after
    the call [getElapsedTime()] is 0, [getTotalIdleTime()] is the
    accumulated [idleTime] and [getTotalActiveTime()] is its negation. *)
Theorem reset_keeps_idle_total (b : bool) (now : Z) (w : World) :
  let w' := exec (reset b now) w in
  idleTime (refs w') = idleTime (refs w)
  /\ lastIdle (refs w') = lastIdle (refs w)
  /\ eval (getElapsedTime now) w' = 0
  /\ eval (getTotalIdleTime now) w' = idleTime (refs w)
  /\ eval (getTotalActiveTime now) w' = - idleTime (refs w).
Proof.
  open_world w. unfold_closures.
  destruct tId0, b; cbn; try destruct eventsBound0; cbn; repeat split; lia.
Qed.

Lemma fire_goes_idle (b : bool) (p : Props) (now : Z) (n : nat) (w : World) :
  idle (refs w) = false ->
  stopOnIdle p = false ->
  existsb (is_pending n now) (timers w) = true ->
  refs (exec (fire b p now n) w)
  = set_lastIdle (Some (now - _timeout (refs w))) (set_idle true (refs w)).
Proof.
  intros Hi Hs Hp. unfold exec, fire. rewrite Hp.
  open_world w. subst. unfold_closures. rewrite Hs. reflexivity.
Qed.

(** X15. One idle interval.  On an Active machine without [stopOnIdle]
    a deadline fires at [t1]; from then until the next evaluated event
    [getTotalIdleTime()] read at [t] is the old total plus
    [t - t1 + _timeout]; the event at [t2] closes the interval, and from
    then on [getTotalIdleTime()] is the old total plus
    [t2 - t1 + _timeout], at every clock value: each interval counts the
    timeout that preceded its detection. *)
Theorem idle_interval_accounting (b : bool) (p : Props) (t1 t2 : Z) (n : nat)
  (e : Event) (w : World) :
  idle (refs w) = false ->
  stopOnIdle p = false ->
  existsb (is_pending n t1) (timers w) = true ->
  returns_early t2 e (refs w) = false ->
  let w1 := exec (fire b p t1 n) w in
  let w2 := exec (_handleEvent b p t2 e) w1 in
  eval isIdle w1 = true
  /\ (forall t, eval (getTotalIdleTime t) w1
                = idleTime (refs w) + (t - t1 + _timeout (refs w)))
  /\ eval isIdle w2 = false
  /\ (forall t, eval (getTotalIdleTime t) w2
                = idleTime (refs w) + (t2 - t1 + _timeout (refs w))).
Proof.
  intros Hi Hs Hp He. cbv zeta.
  pose proof (fire_goes_idle b p t1 n w Hi Hs Hp) as F.
  set (w1 := exec (fire b p t1 n) w) in *.
  assert (He1 : returns_early t2 e (refs w1) = false).
  { rewrite F. destruct (refs w); exact He. }
  assert (Hi1 : idle (refs w1) = true)
    by (rewrite F; destruct (refs w); reflexivity).
  unfold exec at 1 2. rewrite handleEvent_cases, He1.
  destruct (evaluate_effect b p t2 e (noticed e w1)) as (E1 & _).
  destruct (evaluate_wakes b p t2 e (noticed e w1)) as (G1 & G2 & _);
    [destruct w1; exact Hi1 | exact Hs |].
  unfold exec in E1, G1, G2.
  set (w2 := snd (evaluate b p t2 e (noticed e w1))) in *. clearbody w2.
  assert (N : refs (noticed e w1) = refs w1) by (destruct w1; reflexivity).
  rewrite N in *. clear N.
  assert (F2 : flips p t2 (refs w1) = true)
    by (unfold flips; now rewrite Hi1, Hs).
  rewrite F2, Hi1 in E1. cbn in E1.
  unfold eval, isIdle, getTotalIdleTime. step_js.
  rewrite Hi1, E1, G1, F. destruct (refs w). cbn in *.
  repeat split; intros; lia.
Qed.

(** ** What the mount leaves *)

(** X16. A mount with [startOnMount] leaves the machine Active with
    exactly one deadline pending, scheduled at the mount for [timeout]:
    the one the mount effect's [reset()] armed was cancelled by the
    [reset()] of the [timeout] effect.  No callback was called, the
    listeners are attached in a browser, and [getRemainingTime()] counts
    down from [timeout]. *)
Theorem mount_arms_one_deadline (b : bool) (p : Props) (t0 : Z) (w : World) :
  mount b p t0 = inr w ->
  startOnMount p = true ->
  eval isIdle w = false
  /\ timers w = [mkTimer 1 t0 (timeout p)]
  /\ tId (refs w) = Some 1%nat
  /\ eventsBound (refs w) = b
  /\ calls w = []
  /\ forall now, eval (getRemainingTime now) w
                 = Z.max 0 (timeout p - (now - t0)).
Proof.
  intros Hm Hs. revert Hm. unfold mount, mount_effect.
  destruct ((0 <? debounce p) && (0 <? throttle p)); [discriminate|].
  rewrite Hs. intros H. injection H as <-.
  destruct b; cbn; repeat split; intros; unfold_closures;
    now rewrite floor_is_max.
Qed.

(** X17. A mount without [startOnMount] leaves [lastIdle] and
    [lastActive] null, and the totals measure from clock value 0:
    until the first evaluated event [getTotalIdleTime()] returns the
    clock value itself and [getTotalActiveTime()] the negated mount
    time; [getRemainingTime()] is [timeout] minus the clock value,
    floored at 0. *)
Theorem dormant_totals (b : bool) (p : Props) (t0 now : Z) (w : World) :
  mount b p t0 = inr w ->
  startOnMount p = false ->
  eval getLastActiveTime w = None
  /\ eval (getTotalIdleTime now) w = now
  /\ eval (getTotalActiveTime now) w = - t0
  /\ eval (getElapsedTime now) w = now - t0
  /\ eval (getRemainingTime now) w = Z.max 0 (timeout p - now).
Proof.
  intros Hm Hs. revert Hm. unfold mount, mount_effect.
  destruct ((0 <? debounce p) && (0 <? throttle p)); [discriminate|].
  rewrite Hs. intros H. injection H as <-.
  destruct b; cbn; unfold_closures; rewrite floor_is_max;
    repeat split; try lia; f_equal; lia.
Qed.

(** ** Instances of the session and event theorems *)

Lemma mounted_second_props :
  mount true second_props 0 = inr (mounted true second_props 0).
Proof. vm_compute. reflexivity. Defined.

Lemma unpaused_single_deadline_witness :
  mount true second_props 0 = inr (mounted true second_props 0)
  /\ pause_free unpaused_session = true
  /\ remaining
       (refs (session true second_props unpaused_session
                      (mounted true second_props 0))) = None
  /\ (List.length
        (timers (session true second_props unpaused_session
                         (mounted true second_props 0))) <= 1)%nat.
Proof.
  assert (A : pause_free unpaused_session = true) by reflexivity.
  pose proof (unpaused_single_deadline true second_props 0 _
                unpaused_session mounted_second_props A) as W.
  cbv zeta in W. destruct W as (W1 & W2 & _).
  split; [exact mounted_second_props|]. split; [exact A|].
  split; [exact W1 | exact W2].
Defined.

Lemma unmount_leaves_nothing_witness :
  mount true second_props 0 = inr (mounted true second_props 0)
  /\ pause_free unpaused_session = true
  /\ timers (exec (unmount true)
                  (session true second_props unpaused_session
                           (mounted true second_props 0))) = [].
Proof.
  assert (A : pause_free unpaused_session = true) by reflexivity.
  split; [exact mounted_second_props|]. split; [exact A|].
  exact (proj1 (unmount_leaves_nothing true second_props 0 _ unpaused_session
                  mounted_second_props A)).
Defined.

Lemma remaining_never_negative_witness :
  mount true second_props 0 = inr (mounted true second_props 0)
  /\ remaining
       (refs (session true second_props (firstn 7 busy_session)
                      (mounted true second_props 0))) = Some 1900
  /\ 0 <= 1900
  /\ eval (getRemainingTime 9999)
          (session true second_props (firstn 7 busy_session)
                   (mounted true second_props 0)) = 1900.
Proof.
  assert (A : remaining
                (refs (session true second_props (firstn 7 busy_session)
                               (mounted true second_props 0))) = Some 1900)
    by (vm_compute; reflexivity).
  destruct (remaining_never_negative true second_props 0 _
              (firstn 7 busy_session) mounted_second_props 1900 A) as [W1 W2].
  split; [exact mounted_second_props|]. split; [exact A|].
  split; [exact W1 | exact (W2 9999)].
Defined.

Lemma headless_never_binds_witness :
  mount false second_props 0 = inr (mounted false second_props 0)
  /\ eventsBound
       (refs (session false second_props busy_session
                      (mounted false second_props 0))) = false.
Proof.
  assert (A : mount false second_props 0 = inr (mounted false second_props 0))
    by (vm_compute; reflexivity).
  split; [exact A|].
  exact (headless_never_binds second_props 0 _ busy_session A).
Defined.

Lemma event_postpones_deadline_witness :
  idle (refs (mounted true second_props 0)) = false
  /\ returns_early 300 keydown (refs (mounted true second_props 0)) = false
  /\ 300 - to_number (lastActive (refs (mounted true second_props 0)))
     <= _timeout (refs (mounted true second_props 0))
  /\ timers (exec (_handleEvent true second_props 300 keydown)
                  (mounted true second_props 0))
     = [mkTimer 2 300 1000].
Proof.
  assert (A1 : idle (refs (mounted true second_props 0)) = false)
    by reflexivity.
  assert (A2 : returns_early 300 keydown (refs (mounted true second_props 0))
               = false) by reflexivity.
  assert (A3 : 300 - to_number (lastActive (refs (mounted true second_props 0)))
               <= _timeout (refs (mounted true second_props 0)))
    by (cbn; lia).
  split; [exact A1|]. split; [exact A2|]. split; [exact A3|].
  rewrite (event_postpones_deadline true second_props 300 keydown _ A1 A2 A3).
  reflexivity.
Defined.

Lemma overdue_event_goes_idle_witness :
  idle (refs (mounted true second_props 0)) = false
  /\ returns_early 1500 keydown (refs (mounted true second_props 0)) = false
  /\ _timeout (refs (mounted true second_props 0))
     < 1500 - to_number (lastActive (refs (mounted true second_props 0)))
  /\ eval isIdle (exec (_handleEvent true second_props 1500 keydown)
                       (mounted true second_props 0)) = true
  /\ lastIdle (refs (exec (_handleEvent true second_props 1500 keydown)
                          (mounted true second_props 0)))
     = Some (1500 - _timeout (refs (mounted true second_props 0))).
Proof.
  assert (A1 : idle (refs (mounted true second_props 0)) = false)
    by reflexivity.
  assert (A2 : returns_early 1500 keydown (refs (mounted true second_props 0))
               = false) by reflexivity.
  assert (A3 : _timeout (refs (mounted true second_props 0))
               < 1500 - to_number
                          (lastActive (refs (mounted true second_props 0))))
    by (cbn; lia).
  pose proof (overdue_event_goes_idle true second_props 1500 keydown _
                A1 A2 A3) as W.
  cbv zeta in W. destruct W as (W1 & W2 & _).
  split; [exact A1|]. split; [exact A2|]. split; [exact A3|].
  split; [exact W1 | exact W2].
Defined.

Lemma event_wakes_idle_witness :
  idle (refs idle_world) = true
  /\ stopOnIdle second_props = false
  /\ returns_early 1700 keydown (refs idle_world) = false
  /\ eval isIdle (exec (_handleEvent true second_props 1700 keydown)
                       idle_world) = false
  /\ idleTime (refs (exec (_handleEvent true second_props 1700 keydown)
                          idle_world))
     = idleTime (refs idle_world)
       + (1700 - to_number (lastIdle (refs idle_world))).
Proof.
  assert (A1 : idle (refs idle_world) = true) by reflexivity.
  assert (A2 : stopOnIdle second_props = false) by reflexivity.
  assert (A3 : returns_early 1700 keydown (refs idle_world) = false)
    by reflexivity.
  pose proof (event_wakes_idle true second_props 1700 keydown _ A1 A2 A3) as W.
  cbv zeta in W. destruct W as (W1 & W2 & _).
  split; [exact A1|]. split; [exact A2|]. split; [exact A3|].
  split; [exact W1 | exact W2].
Defined.

Lemma mousemove_dropped_witness :
  ev_type (mkEvent "mousemove" JUndefined JUndefined) = "mousemove"%string
  /\ ev_pageX (mkEvent "mousemove" JUndefined JUndefined) = JUndefined
  /\ ev_pageY (mkEvent "mousemove" JUndefined JUndefined) = JUndefined
  /\ exec (_handleEvent true second_props 5000
             (mkEvent "mousemove" JUndefined JUndefined))
          (mounted true second_props 0)
     = noticed (mkEvent "mousemove" JUndefined JUndefined)
               (mounted true second_props 0).
Proof.
  split; [reflexivity|]. split; [reflexivity|]. split; [reflexivity|].
  apply (mousemove_dropped true second_props 5000
           (mkEvent "mousemove" JUndefined JUndefined)
           (mounted true second_props 0) eq_refl).
  left. split; reflexivity.
Defined.

Lemma paused_events_only_notice_witness :
  truthy (remaining (refs (exec (pause true 400)
                                (mounted true second_props 0)))) = true
  /\ refs (run true second_props
               (deliveries [(500, keydown); (600, mousemove_at 1 2)])
               (exec (pause true 400) (mounted true second_props 0)))
     = refs (exec (pause true 400) (mounted true second_props 0)).
Proof.
  assert (A : truthy (remaining (refs (exec (pause true 400)
                                            (mounted true second_props 0))))
              = true) by reflexivity.
  split; [exact A|].
  exact (proj1 (paused_events_only_notice true second_props
                  [(500, keydown); (600, mousemove_at 1 2)] _ A)).
Defined.

Lemma pause_freezes_remaining_witness :
  remaining (refs (mounted true second_props 0)) = None
  /\ eval (getRemainingTime 900)
          (exec (pause true 400) (mounted true second_props 0))
     = eval (getRemainingTime 400) (mounted true second_props 0)
  /\ eval (getRemainingTime 400) (mounted true second_props 0) = 600.
Proof.
  assert (A : remaining (refs (mounted true second_props 0)) = None)
    by reflexivity.
  pose proof (pause_freezes_remaining true 400 900 _ A) as W. cbv zeta in W.
  split; [exact A|]. split; [exact (proj1 W) | reflexivity].
Defined.

Lemma pause_resume_rearms_witness :
  idle (refs (mounted true second_props 0)) = false
  /\ remaining (refs (mounted true second_props 0)) = None
  /\ timers (exec (resume true 700)
                  (exec (pause true 400) (mounted true second_props 0)))
     = cancel (tId (refs (mounted true second_props 0)))
              (timers (mounted true second_props 0))
       ++ [mkTimer (nextId (mounted true second_props 0)) 700
                   (eval (getRemainingTime 400) (mounted true second_props 0))]
  /\ eval (getRemainingTime 700)
          (exec (resume true 700)
                (exec (pause true 400) (mounted true second_props 0)))
     = Z.max 0 (_timeout (refs (mounted true second_props 0)) - (700 - 700)).
Proof.
  assert (A1 : idle (refs (mounted true second_props 0)) = false)
    by reflexivity.
  assert (A2 : remaining (refs (mounted true second_props 0)) = None)
    by reflexivity.
  pose proof (pause_resume_rearms true 400 700 700 _ A1 A2) as W.
  cbv zeta in W. destruct W as (_ & _ & _ & _ & W1 & W2).
  split; [exact A1|]. split; [exact A2|]. split; [exact W1 | exact W2].
Defined.

Lemma timeout_change_activates_witness :
  firstLoad (refs idle_world) = false
  /\ _timeout (refs (exec (timeout_effect true second_props 2000 3000)
                          idle_world)) = 3000
  /\ eval isIdle (exec (timeout_effect true second_props 2000 3000)
                       idle_world) = false.
Proof.
  assert (A : firstLoad (refs idle_world) = false) by reflexivity.
  pose proof (timeout_change_activates true second_props 2000 3000 _ A) as W.
  cbv zeta in W. destruct W as (W1 & W2 & _).
  split; [exact A|]. split; [exact W1 | exact W2].
Defined.

Lemma totals_run_like_a_stopwatch_witness :
  idle (refs idle_world) = true
  /\ eval (getTotalActiveTime 9000) idle_world
     = eval (getTotalActiveTime 2000) idle_world
  /\ eval (getTotalIdleTime 9000) idle_world
     - eval (getTotalIdleTime 2000) idle_world = 9000 - 2000.
Proof.
  assert (A : idle (refs idle_world) = true) by reflexivity.
  destruct (totals_run_like_a_stopwatch 2000 9000 idle_world)
    as (_ & _ & W).
  split; [exact A|]. exact (W A).
Defined.

Lemma idle_interval_accounting_witness :
  idle (refs (mounted true second_props 0)) = false
  /\ stopOnIdle second_props = false
  /\ existsb (is_pending 1 1000) (timers (mounted true second_props 0)) = true
  /\ returns_early 1700 keydown (refs (mounted true second_props 0)) = false
  /\ eval (getTotalIdleTime 5000)
          (exec (_handleEvent true second_props 1700 keydown)
                (exec (fire true second_props 1000 1)
                      (mounted true second_props 0)))
     = idleTime (refs (mounted true second_props 0))
       + (1700 - 1000 + _timeout (refs (mounted true second_props 0))).
Proof.
  assert (A1 : idle (refs (mounted true second_props 0)) = false)
    by reflexivity.
  assert (A2 : stopOnIdle second_props = false) by reflexivity.
  assert (A3 : existsb (is_pending 1 1000)
                 (timers (mounted true second_props 0)) = true)
    by reflexivity.
  assert (A4 : returns_early 1700 keydown (refs (mounted true second_props 0))
               = false) by reflexivity.
  pose proof (idle_interval_accounting true second_props 1000 1700 1 keydown _
                A1 A2 A3 A4) as W.
  cbv zeta in W. destruct W as (_ & _ & _ & W).
  split; [exact A1|]. split; [exact A2|]. split; [exact A3|].
  split; [exact A4|]. exact (W 5000).
Defined.

Lemma mount_arms_one_deadline_witness :
  mount true second_props 0 = inr (mounted true second_props 0)
  /\ startOnMount second_props = true
  /\ timers (mounted true second_props 0)
     = [mkTimer 1 0 (timeout second_props)].
Proof.
  assert (A : startOnMount second_props = true) by reflexivity.
  pose proof (mount_arms_one_deadline true second_props 0 _
                mounted_second_props A) as W.
  split; [exact mounted_second_props|]. split; [exact A|].
  exact (proj1 (proj2 W)).
Defined.

Lemma dormant_totals_witness :
  mount true dormant_props 5 = inr (mounted true dormant_props 5)
  /\ startOnMount dormant_props = false
  /\ eval (getTotalIdleTime 9) (mounted true dormant_props 5) = 9
  /\ eval (getTotalActiveTime 9) (mounted true dormant_props 5) = - 5.
Proof.
  assert (A1 : mount true dormant_props 5 = inr (mounted true dormant_props 5))
    by (vm_compute; reflexivity).
  assert (A2 : startOnMount dormant_props = false) by reflexivity.
  pose proof (dormant_totals true dormant_props 5 9 _ A1 A2) as W.
  destruct W as (_ & W1 & W2 & _).
  split; [exact A1|]. split; [exact A2|]. split; [exact W1 | exact W2].
Defined.
